(** * A shallow embedding of [cdap.py], the CDAP REST client

    The client is a thin layer over HTTP: every method builds one request
    specification, hands it to the request executor and shapes the decoded
    JSON answer.  The embedding keeps that structure.

    - Values handled by the client are the values of decoded JSON ([value]);
      dynamic typing is kept: subscripting, iteration, [len], [upper] and
      ordering are partial and raise the exception Python 3 raises.
      Two builtins are left open, as parameters of the definitions that
      call them: the case mapping of [str.upper], and [repr] of a list or
      dict.
    - Methods live in a state-and-exception monad [M].  The state holds the
      attributes of [self], the trace of requests handed to the executor and
      the records sent to the logger.
    - The platform behind the executor is a parameter: a function from the
      requests seen so far and the current request to a response or a
      raised transport error. *)

From Stdlib Require Import ZArith List String Ascii Bool Lia Permutation.
From Stdlib Require Import DecimalString.
Import ListNotations.
Open Scope string_scope.

Set Warnings "-register-all".

(** ** Python values, exceptions and builtins *)

Module Py.

(** Decoded JSON.  A dict is kept as an association list in document order;
    lookup takes the first binding of a key.  Numbers are integers: the
    fields the client reads ("starting", HTTP status codes) are integral. *)
Inductive value : Type :=
| VNone : value
| VBool : bool -> value
| VInt : Z -> value
| VStr : string -> value
| VList : list value -> value
| VDict : list (string * value) -> value.

(** The exceptions the client can meet; all derive from [Exception].
    [ConnectionError] stands for whatever the transport raises. *)
Inductive exn : Type :=
| KeyError : string -> exn
| TypeError : exn
| AttributeError : exn
| ValueError : exn
| IndexError : exn
| ConnectionError : string -> exn.

Inductive result (A : Type) : Type :=
| Ok : A -> result A
| Raise : exn -> result A.
Arguments Ok {A} _.
Arguments Raise {A} _.

Definition rbind {A B} (r : result A) (k : A -> result B) : result B :=
  match r with
  | Ok a => k a
  | Raise e => Raise e
  end.

Declare Scope result_scope.
Delimit Scope result_scope with result.
Notation "x <-? c ; k" := (rbind c (fun x => k))
  (at level 61, c at next level, right associativity) : result_scope.

(** [x is True], [x is False]: identity with the two bool singletons. *)
Definition is_True (v : value) : bool :=
  match v with VBool true => true | _ => false end.

Definition is_False (v : value) : bool :=
  match v with VBool false => true | _ => false end.

(** Truth value of [if x:]. *)
Definition truthy (v : value) : bool :=
  match v with
  | VNone => false
  | VBool b => b
  | VInt z => negb (z =? 0)%Z
  | VStr s => negb (s =? "")
  | VList l => match l with [] => false | _ => true end
  | VDict d => match d with [] => false | _ => true end
  end.

Fixpoint assoc (k : string) (d : list (string * value)) : option value :=
  match d with
  | [] => None
  | (k', v) :: d' => if k' =? k then Some v else assoc k d'
  end.

(** [obj[key]] with a string key. *)
Definition getitem (obj : value) (key : string) : result value :=
  match obj with
  | VDict d => match assoc key d with
               | Some v => Ok v
               | None => Raise (KeyError key)
               end
  | _ => Raise TypeError
  end.

Fixpoint chars (s : string) : list value :=
  match s with
  | EmptyString => []
  | String c s' => VStr (String c EmptyString) :: chars s'
  end.

(** [obj[i]] with a non-negative integer index. *)
Definition getindex (obj : value) (i : nat) : result value :=
  match obj with
  | VList l => match nth_error l i with
               | Some v => Ok v
               | None => Raise IndexError
               end
  | VStr s => match nth_error (chars s) i with
              | Some v => Ok v
              | None => Raise IndexError
              end
  | VDict _ => Raise (KeyError (NilZero.string_of_int (Z.to_int (Z.of_nat i))))
  | _ => Raise TypeError
  end.

(** The sequence a [for] loop walks through. *)
Definition iter (obj : value) : result (list value) :=
  match obj with
  | VList l => Ok l
  | VDict d => Ok (map (fun kv => VStr (fst kv)) d)
  | VStr s => Ok (chars s)
  | _ => Raise TypeError
  end.

Definition len (obj : value) : result nat :=
  match obj with
  | VList l => Ok (List.length l)
  | VDict d => Ok (List.length d)
  | VStr s => Ok (String.length s)
  | _ => Raise TypeError
  end.

(** [obj.upper()]: only strings have the method.  What [str.upper] makes
    of a string (the case mapping of the Unicode database) is the argument
    [str_upper]. *)
Definition upper (str_upper : string -> string) (obj : value) : result string :=
  match obj with
  | VStr s => Ok (str_upper s)
  | _ => Raise AttributeError
  end.

Definition str_of_Z (z : Z) : string := NilZero.string_of_int (Z.to_int z).

Definition num_of (v : value) : option Z :=
  match v with
  | VInt z => Some z
  | VBool b => Some (Z.b2z b)
  | _ => None
  end.

(** [a == b]; never raises.  [True == 1], and dicts compare as mappings. *)
Fixpoint eqb (a b : value) {struct a} : bool :=
  match a with
  | VNone => match b with VNone => true | _ => false end
  | VBool x => match num_of b with Some y => (Z.b2z x =? y)%Z | None => false end
  | VInt x => match num_of b with Some y => (x =? y)%Z | None => false end
  | VStr x => match b with VStr y => (x =? y) | _ => false end
  | VList xs =>
      match b with
      | VList ys =>
          (fix go (xs ys : list value) {struct xs} : bool :=
             match xs, ys with
             | [], [] => true
             | x :: xs', y :: ys' => eqb x y && go xs' ys'
             | _, _ => false
             end) xs ys
      | _ => false
      end
  | VDict xs =>
      match b with
      | VDict ys =>
          (List.length xs =? List.length ys)%nat &&
          (fix go (xs : list (string * value)) {struct xs} : bool :=
             match xs with
             | [] => true
             | (k, v) :: xs' =>
                 match assoc k ys with
                 | Some w => eqb v w && go xs'
                 | None => false
                 end
             end) xs
      | _ => false
      end
  end.

(** [a < b].  Numbers and strings are ordered within their kind, lists
    lexicographically; every other pair raises [TypeError]. *)
Fixpoint ltb (a b : value) {struct a} : result bool :=
  match a with
  | VNone => Raise TypeError
  | VBool x => match num_of b with Some y => Ok (Z.b2z x <? y)%Z | None => Raise TypeError end
  | VInt x => match num_of b with Some y => Ok (x <? y)%Z | None => Raise TypeError end
  | VStr x => match b with VStr y => Ok (String.ltb x y) | _ => Raise TypeError end
  | VList xs =>
      match b with
      | VList ys =>
          (fix go (xs ys : list value) {struct xs} : result bool :=
             match xs, ys with
             | [], [] => Ok false
             | [], _ :: _ => Ok true
             | _ :: _, [] => Ok false
             | x :: xs', y :: ys' => if eqb x y then go xs' ys' else ltb x y
             end) xs ys
      | _ => Raise TypeError
      end
  | VDict _ => Raise TypeError
  end.

(** [(a, i) < (b, j)] on the pairs built by [enumerate]: the first
    components decide unless they are equal. *)
Definition pair_ltb (p q : value * nat) : result bool :=
  if eqb (fst p) (fst q) then Ok (snd p <? snd q)%nat else ltb (fst p) (fst q).

(** [sorted(l, reverse=True)], written as a stable insertion sort that only
    asks [<], as the list sort does.  An element goes in front of the first
    one it is not smaller than. *)
Fixpoint insert_reverse (x : value * nat) (l : list (value * nat))
  : result (list (value * nat)) :=
  match l with
  | [] => Ok [x]
  | y :: l' =>
      (b <-? pair_ltb x y;
       if b then (r <-? insert_reverse x l'; Ok (y :: r)) else Ok (x :: y :: l'))%result
  end.

Fixpoint sorted_reverse (l : list (value * nat)) : result (list (value * nat)) :=
  match l with
  | [] => Ok []
  | x :: l' => (r <-? sorted_reverse l'; insert_reverse x r)%result
  end.

(** [enumerate(l)], counting from [i]. *)
Fixpoint enumerate_from (i : nat) (l : list value) : list (nat * value) :=
  match l with
  | [] => []
  | x :: l' => (i, x) :: enumerate_from (S i) l'
  end.

Definition enumerate (l : list value) : list (nat * value) := enumerate_from 0 l.

(** A list comprehension whose body may raise. *)
Fixpoint mapR {A B} (f : A -> result B) (l : list A) : result (list B) :=
  match l with
  | [] => Ok []
  | x :: l' => (y <-? f x; r <-? mapR f l'; Ok (y :: r))%result
  end.

End Py.

Import Py.
Open Scope result_scope.

(** ** class Workflows(Enum) *)

Module Workflows.

Inductive t : Type := WORKFLOW | SPARK.

Definition name (w : t) : string :=
  match w with
  | WORKFLOW => "WORKFLOW"
  | SPARK => "SPARK"
  end.

Definition value (w : t) : string :=
  match w with
  | WORKFLOW => "workflows"
  | SPARK => "spark"
  end.

(** [Workflows[key]]: lookup of a member by its name. *)
Definition by_name (key : string) : result t :=
  if key =? name WORKFLOW then Ok WORKFLOW
  else if key =? name SPARK then Ok SPARK
  else Raise (KeyError key).

Section Upper.

(** [str.upper], a builtin: the enumeration is looked up and the program
    types are compared through it, whatever it maps a string to. *)
Variable str_upper : string -> string.

Definition get_api_workflow_name (workflow : Py.value) : result string :=
  key <-? upper str_upper workflow;
  w <-? by_name key;
  Ok (value w).

(** The [for] loop of [get_cdap_workflow]; [spark_program] is the local
    variable of that name. *)
Fixpoint get_cdap_workflow_loop (spark_program : Py.value) (programs : list Py.value)
  : result Py.value :=
  match programs with
  | [] => Ok spark_program
  | program :: rest =>
      ty <-? getitem program "type";
      program_type <-? upper str_upper ty;
      if program_type =? name WORKFLOW then Ok program
      else if program_type =? name SPARK then get_cdap_workflow_loop program rest
      else get_cdap_workflow_loop spark_program rest
  end.

Definition get_cdap_workflow (program_list : Py.value) : result Py.value :=
  programs <-? iter program_list;
  get_cdap_workflow_loop VNone programs.

End Upper.

End Workflows.

(** ** The collaborators of the client *)

(** Modelled from the spec: the module [request_type] is not part of the
    sources at hand; the spec lists the four methods of a request
    specification (GET/POST/PUT/DELETE). *)
Inductive RequestType : Type := GET | POST | PUT | DELETE.

(** Modelled from the spec: the class [ApiRequestSpecification] is not part
    of the sources at hand.  The spec describes it as a data holder for one
    HTTP call: method, URL, optional query parameters, optional JSON body,
    TLS-verification flag and optional bearer token, with a mutator that
    attaches the token after construction.  Keyword arguments the client
    does not pass are [None]. *)
Record ApiRequestSpecification : Type := mkSpec {
  request_type : RequestType;
  url : string;
  query_params : option (list (string * value));
  json : option value;
  verify : bool;
  bearer_token : option value
}.

Definition set_bearer_token (spec : ApiRequestSpecification) (token : value)
  : ApiRequestSpecification :=
  {| request_type := request_type spec;
     url := url spec;
     query_params := query_params spec;
     json := json spec;
     verify := verify spec;
     bearer_token := Some token |}.

(** What the client reads of [requests.models.Response]: the status code and
    the decoded body ([None] when the body is not JSON). *)
Record Response : Type := mkResponse {
  status_code : Z;
  body : option value
}.

(** [response.json()] *)
Definition Response_json (r : Response) : result value :=
  match body r with
  | Some v => Ok v
  | None => Raise ValueError
  end.

Inductive Level : Type := WARNING | ERROR.

(** One call on the logger; [exc_info] is the exception being handled when
    the record was made through [logger.exception]. *)
Record LogRecord : Type := mkLog {
  level : Level;
  message : string;
  exc_info : option exn
}.

(** ** class Cdap *)

Module Cdap.

(** The attributes of an instance.  [api_request] and [_logger] hold no data
    of their own; their effects are the [trace] and [logs] of the state. *)
Record t : Type := mkCdap {
  username : value;
  password : value;
  node_ip : value;
  ui_port : value;
  rest_port : value;
  kerberized : value;
  ui_base_url : string;
  rest_base_url : string;
  rest_url : string;
  verify : bool;
  access_token : value
}.

Record State : Type := mkState {
  self : t;
  trace : list ApiRequestSpecification;
  logs : list LogRecord
}.

Definition M (A : Type) : Type := State -> result A * State.

Definition ret {A} (a : A) : M A := fun s => (Ok a, s).

Definition bind {A B} (m : M A) (k : A -> M B) : M B :=
  fun s => match m s with
           | (Ok a, s') => k a s'
           | (Raise e, s') => (Raise e, s')
           end.

Definition lift {A} (r : result A) : M A := fun s => (r, s).

Definition get_self : M t := fun s => (Ok (self s), s).

Definition set_self (c : t) : M unit :=
  fun s => (Ok tt, {| self := c; trace := trace s; logs := logs s |}).

(** [try: m  except Exception: h] *)
Definition try_except {A} (m : M A) (h : exn -> M A) : M A :=
  fun s => match m s with
           | (Ok a, s') => (Ok a, s')
           | (Raise e, s') => h e s'
           end.

Fixpoint for_each {A} (l : list A) (f : A -> M unit) : M unit :=
  match l with
  | [] => ret tt
  | x :: l' => bind (f x) (fun _ => for_each l' f)
  end.

Declare Scope cdap_scope.
Delimit Scope cdap_scope with cdap.
Notation "x <- c ;; k" := (bind c (fun x => k))
  (at level 61, c at next level, right associativity) : cdap_scope.
Notation "c ;; k" := (bind c (fun _ => k))
  (at level 61, right associativity) : cdap_scope.
Open Scope cdap_scope.

Definition log (lv : Level) (msg : string) (e : option exn) : M unit :=
  fun s => (Ok tt, {| self := self s; trace := trace s;
                      logs := (logs s ++ [mkLog lv msg e])%list |}).

(** [self._logger.warn(msg)] *)
Definition logger_warn (msg : string) : M unit := log WARNING msg None.

(** [self._logger.exception(msg)], called while [e] is being handled. *)
Definition logger_exception (msg : string) (e : exn) : M unit := log ERROR msg (Some e).

(** What [create_pipeline] returns: [False], or the response of the PUT. *)
Inductive created : Type :=
| NotCreated : created
| Deployed : Response -> created.

Section Client.

(** The platform: the answer to a request, given the requests dispatched
    before it.  A raised exception is a transport failure. *)
Variable server : list ApiRequestSpecification -> ApiRequestSpecification -> result Response.

(** [repr] of a list or dict.  The client only ever splices it into a URL or
    a message, so its text is left open. *)
Variable py_repr : value -> string.

(** [str.upper], as in [Workflows]. *)
Variable str_upper : string -> string.

(** [str(v)], also what ["%s" % v] renders. *)
Definition str (v : value) : string :=
  match v with
  | VNone => "None"
  | VBool true => "True"
  | VBool false => "False"
  | VInt z => str_of_Z z
  | VStr s => s
  | VList _ | VDict _ => py_repr v
  end.

(** Modelled from the spec: [ApiRequest.execute_request] is not part of the
    sources at hand.  The spec makes it the single point of network I/O: it
    performs the call described by the specification and returns the raw
    response, without retrying, interpreting status codes or catching
    transport errors. *)
Definition ApiRequest_execute_request (spec : ApiRequestSpecification) : M Response :=
  fun s => (server (trace s) spec,
            {| self := self s; trace := (trace s ++ [spec])%list; logs := logs s |}).

Definition get_access_token (username password : value) : M value :=
  c <- get_self;;
  let c1 :=
    {| Cdap.username := Cdap.username c; Cdap.password := Cdap.password c;
       node_ip := node_ip c; ui_port := ui_port c; rest_port := rest_port c;
       kerberized := kerberized c;
       ui_base_url := "https://" ++ str (node_ip c) ++ ":" ++ str (ui_port c);
       rest_base_url := "https://" ++ str (node_ip c) ++ ":" ++ str (rest_port c);
       rest_url := rest_url c;
       verify := false;
       access_token := access_token c |} in
  set_self c1;;
  let url := ui_base_url c1 ++ "/login" in
  let payload := VDict [("username", username); ("password", password)] in
  let api_request_specification :=
    mkSpec POST url None (Some payload) (verify c1) None in
  r <- ApiRequest_execute_request api_request_specification;;
  j <- lift (Response_json r);;
  lift (getitem j "access_token").

(** [Cdap.__init__].  [access_token] is assigned last; until then the
    attribute does not exist, and nothing reads it. *)
Definition init (node_ip rest_port ui_port username password kerberized namespace_id : value)
  : M unit :=
  let ui_base := "http://" ++ str node_ip ++ ":" ++ str ui_port in
  let rest_base := "http://" ++ str node_ip ++ ":" ++ str rest_port in
  set_self
    {| Cdap.username := username; Cdap.password := password;
       Cdap.node_ip := node_ip; Cdap.ui_port := ui_port; Cdap.rest_port := rest_port;
       Cdap.kerberized := kerberized;
       ui_base_url := ui_base;
       rest_base_url := rest_base;
       rest_url := rest_base ++ "/v3/namespaces/" ++ str namespace_id;
       verify := true;
       access_token := VNone |};;
  token <- (if is_True kerberized then get_access_token username password else ret VNone);;
  c <- get_self;;
  set_self
    {| Cdap.username := Cdap.username c; Cdap.password := Cdap.password c;
       Cdap.node_ip := Cdap.node_ip c; Cdap.ui_port := Cdap.ui_port c;
       Cdap.rest_port := Cdap.rest_port c; Cdap.kerberized := Cdap.kerberized c;
       ui_base_url := ui_base_url c; rest_base_url := rest_base_url c;
       rest_url := rest_url c; verify := verify c;
       access_token := token |}.

Definition execute_request (api_request_specification : ApiRequestSpecification)
  : M Response :=
  c <- get_self;;
  ApiRequest_execute_request
    (if is_True (kerberized c)
     then set_bearer_token api_request_specification (access_token c)
     else api_request_specification).

Definition apps (artifact_name artifact_version : value) : M Response :=
  c <- get_self;;
  let url := rest_url c ++ "/apps" in
  let query_params :=
    ((if truthy artifact_name then [("artifactName", artifact_name)] else []) ++
     (if truthy artifact_version then [("artifactVersion", artifact_version)] else []))%list in
  execute_request (mkSpec GET url (Some query_params) None (verify c) None).

Definition get_all_pipelines (artifact_name artifact_version : value) : M (list value) :=
  r <- apps artifact_name artifact_version;;
  j <- lift (Response_json r);;
  items <- lift (iter j);;
  lift (mapR (fun pipeline => getitem pipeline "name") items).

Definition get_pipeline_info (pipeline_name : value) : M Response :=
  c <- get_self;;
  let rest_url := rest_url c ++ "/apps/" ++ str pipeline_name in
  execute_request (mkSpec GET rest_url None None (verify c) None).

Definition create_pipeline (pipeline_name overwrite_pipeline input_json : value)
  : M created :=
  exists_ <- (if is_False overwrite_pipeline
              then (r <- get_pipeline_info pipeline_name;;
                    ret (status_code r =? 200)%Z)
              else ret false);;
  if exists_ : bool then
    logger_warn ("Pipeline " ++ str pipeline_name ++ " already exists");;
    ret NotCreated
  else
    c <- get_self;;
    let rest_url := rest_url c ++ "/apps/" ++ str pipeline_name in
    r <- execute_request (mkSpec PUT rest_url None (Some input_json) (verify c) None);;
    ret (Deployed r).

Definition get_programs (pipeline_name : value) : M value :=
  r <- get_pipeline_info pipeline_name;;
  j <- lift (Response_json r);;
  lift (getitem j "programs").

Definition get_workflow (pipeline_name : value) : M value :=
  program_list <- get_programs pipeline_name;;
  lift (Workflows.get_cdap_workflow str_upper program_list).

Definition start_pipeline (pipeline_name : value) : M Response :=
  c <- get_self;;
  let rest_url := rest_url c ++ "/start" in
  workflow <- get_workflow pipeline_name;;
  app <- lift (getitem workflow "app");;
  ty <- lift (getitem workflow "type");;
  nm <- lift (getitem workflow "name");;
  let workflow_json :=
    VList [VDict [("appId", VStr (str app)); ("programType", VStr (str ty));
                  ("programId", VStr (str nm))]] in
  c' <- get_self;;
  execute_request (mkSpec POST rest_url None (Some workflow_json) (verify c') None).

Definition get_workflow_executions (pipeline_name : value) : M Response :=
  workflow <- get_workflow pipeline_name;;
  workflow_id <- lift (getitem workflow "name");;
  ty <- lift (getitem workflow "type");;
  workflow_type <- lift (Workflows.get_api_workflow_name str_upper ty);;
  c <- get_self;;
  let rest_url := rest_url c ++ "/apps/" ++ str pipeline_name ++ "/" ++ workflow_type
                  ++ "/" ++ str workflow_id ++ "/runs" in
  execute_request (mkSpec GET rest_url None None (verify c) None).

Definition get_workflow_execution_by_id (pipeline_name execution_id : value) : M Response :=
  workflow <- get_workflow pipeline_name;;
  workflow_id <- lift (getitem workflow "name");;
  ty <- lift (getitem workflow "type");;
  workflow_type <- lift (Workflows.get_api_workflow_name str_upper ty);;
  c <- get_self;;
  let rest_url := rest_url c ++ "/apps/" ++ str pipeline_name ++ "/" ++ workflow_type
                  ++ "/" ++ str workflow_id ++ "/runs/" ++ str execution_id in
  execute_request (mkSpec GET rest_url None None (verify c) None).

(** The body of [get_last_executed_workflow_id] once the execution list has
    been fetched and decoded. *)
Definition last_executed_of (execution_list : value) : result string :=
  n <-? len execution_list;
  if (n =? 0)%nat then Ok ""
  else
    items <-? iter execution_list;
    keys <-? mapR (fun ix => starting <-? getitem (snd ix) "starting"; Ok (starting, fst ix))
                  (enumerate items);
    sorted <-? sorted_reverse keys;
    first <-? match sorted with [] => Raise IndexError | k :: _ => Ok k end;
    let index_of_max_start_time := snd first in
    execution <-? getindex execution_list index_of_max_start_time;
    runid <-? getitem execution "runid";
    Ok (str runid).

Definition get_last_executed_workflow_id (pipeline_name : value) : M string :=
  r <- get_workflow_executions pipeline_name;;
  execution_list <- lift (Response_json r);;
  lift (last_executed_of execution_list).

Definition _update_status (pipeline_name execution_id : value) : M string :=
  if eqb execution_id (VStr "") then ret "NOT_EXECUTED"
  else
    r <- get_workflow_execution_by_id pipeline_name execution_id;;
    j <- lift (Response_json r);;
    status <- lift (getitem j "status");;
    ret (str status).

Definition get_last_executed_workflow_status (pipeline_name : value) : M string :=
  run_id <- get_last_executed_workflow_id pipeline_name;;
  _update_status pipeline_name (VStr run_id).

Definition get_workflow_execution_status_by_id (pipeline_name execution_id : value)
  : M string :=
  _update_status pipeline_name execution_id.

Definition query_dataset (query : value) : M Response :=
  c <- get_self;;
  let url := rest_url c ++ "/data/explore/queries" in
  execute_request (mkSpec POST url None (Some (VDict [("query", query)])) (verify c) None).

Definition get_query_status (query_handle : value) : M Response :=
  c <- get_self;;
  let url := rest_base_url c ++ "/v3/data/explore/queries/" ++ str query_handle ++ "/status" in
  execute_request (mkSpec GET url None None (verify c) None).

Definition download_query_results (query_handle : value) : M Response :=
  c <- get_self;;
  let url := rest_base_url c ++ "/v3/data/explore/queries/" ++ str query_handle ++ "/download" in
  execute_request (mkSpec POST url None None (verify c) None).

Definition view_query_result (query_handle : value) : M Response :=
  c <- get_self;;
  let url := rest_base_url c ++ "/v3/data/explore/queries/" ++ str query_handle ++ "/next" in
  execute_request (mkSpec POST url None None (verify c) None).

Definition schema (query_handle : value) : M Response :=
  c <- get_self;;
  let url := rest_base_url c ++ "/v3/data/explore/queries/" ++ str query_handle ++ "/schema" in
  execute_request (mkSpec GET url None None (verify c) None).

Fixpoint is_streaming_loop (plugins : list value) : result bool :=
  match plugins with
  | [] => Ok false
  | type_ :: rest =>
      ty <-? getitem type_ "type";
      if eqb ty (VStr "streamingsource") then Ok true else is_streaming_loop rest
  end.

Definition is_streaming_pipeline (pipeline_name : value) : M bool :=
  r <- get_pipeline_info pipeline_name;;
  j <- lift (Response_json r);;
  plugins <- lift (getitem j "plugins");;
  items <- lift (iter plugins);;
  lift (is_streaming_loop items).

Definition stop_pipeline (pipeline_name : value) : M Response :=
  execution_id <- get_last_executed_workflow_id pipeline_name;;
  workflow <- get_workflow pipeline_name;;
  workflow_id <- lift (getitem workflow "name");;
  ty <- lift (getitem workflow "type");;
  workflow_type <- lift (Workflows.get_api_workflow_name str_upper ty);;
  c <- get_self;;
  let rest_url := rest_url c ++ "/apps/" ++ str pipeline_name ++ "/" ++ workflow_type
                  ++ "/" ++ str workflow_id ++ "/runs/" ++ execution_id ++ "/stop" in
  execute_request (mkSpec POST rest_url None None (verify c) None).

Definition stop_all_pipelines : M unit :=
  pipelines <- get_all_pipelines VNone VNone;;
  for_each pipelines (fun pipeline =>
    try_except (stop_pipeline pipeline;; ret tt)
      (fun e => logger_exception ("Cannot stop pipeline " ++ str pipeline) e)).

Definition delete_pipeline (pipeline_name : value) : M Response :=
  c <- get_self;;
  let rest_url := rest_url c ++ "/apps/" ++ str pipeline_name in
  execute_request (mkSpec DELETE rest_url None None (verify c) None).

Definition delete_all_pipelines (artifact_name artifact_version : value) : M unit :=
  pipelines <- get_all_pipelines artifact_name artifact_version;;
  for_each pipelines (fun pipeline => delete_pipeline pipeline;; ret tt).

End Client.

End Cdap.

(** ** Vocabulary of the statements *)

(** The upper-cased type of a program descriptor, when it has a string
    under "type". *)
Definition program_type (str_upper : string -> string) (p : value) : option string :=
  match getitem p "type" with
  | Ok (VStr t) => Some (str_upper t)
  | _ => None
  end.

Definition is_descriptor (str_upper : string -> string) (p : value) : Prop :=
  program_type str_upper p <> None.
Definition is_workflow (str_upper : string -> string) (p : value) : Prop :=
  program_type str_upper p = Some "WORKFLOW".
Definition is_spark (str_upper : string -> string) (p : value) : Prop :=
  program_type str_upper p = Some "SPARK".

Definition descriptor (ty nm app : string) : value :=
  VDict [("type", VStr ty); ("name", VStr nm); ("app", VStr app)].

Definition execution (starting : Z) (runid status : string) : value :=
  VDict [("runid", VStr runid); ("starting", VInt starting); ("status", VStr status)].

(** Sort keys with an integer start time, and their order as Python
    compares the pairs: by start time, then by index. *)
Definition int_key (k : Z * nat) : value * nat := (VInt (fst k), snd k).

Definition key_ltb (a b : Z * nat) : bool :=
  if (fst a =? fst b)%Z then (snd a <? snd b)%nat else (fst a <? fst b)%Z.

Definition key_le (a b : Z * nat) : Prop :=
  (fst a < fst b)%Z \/ (fst a = fst b /\ snd a <= snd b).

Fixpoint ins (x : Z * nat) (l : list (Z * nat)) : list (Z * nat) :=
  match l with
  | [] => [x]
  | y :: l' => if key_ltb x y then y :: ins x l' else x :: y :: l'
  end.

Fixpoint isort (l : list (Z * nat)) : list (Z * nat) :=
  match l with
  | [] => []
  | x :: l' => ins x (isort l')
  end.

Fixpoint keys_from (i : nat) (ts : list Z) : list (Z * nat) :=
  match ts with
  | [] => []
  | t :: ts' => (t, i) :: keys_from (S i) ts'
  end.

(** A request as [Cdap.execute_request] hands it on: with the token of the
    instance attached when the instance is kerberized. *)
Definition dispatched (c : Cdap.t) (spec : ApiRequestSpecification)
  : ApiRequestSpecification :=
  if is_True (Cdap.kerberized c) then set_bearer_token spec (Cdap.access_token c) else spec.

(** The state after one more request went out. *)
Definition sent (s : Cdap.State) (spec : ApiRequestSpecification) : Cdap.State :=
  {| Cdap.self := Cdap.self s;
     Cdap.trace := (Cdap.trace s ++ [spec])%list;
     Cdap.logs := Cdap.logs s |}.

Definition logged (s : Cdap.State) (r : LogRecord) : Cdap.State :=
  {| Cdap.self := Cdap.self s;
     Cdap.trace := Cdap.trace s;
     Cdap.logs := (Cdap.logs s ++ [r])%list |}.

(** The request carries the token of the instance. *)
Definition carries (c : Cdap.t) (req : ApiRequestSpecification) : Prop :=
  bearer_token req = Some (Cdap.access_token c).

(** Nothing but requests and log records: [self] is kept, the trace only
    grows, and on a kerberized instance every request added carries the
    token of the instance. *)
Definition framed {A} (m : Cdap.M A) : Prop :=
  forall s,
    Cdap.self (snd (m s)) = Cdap.self s /\
    exists t,
      Cdap.trace (snd (m s)) = (Cdap.trace s ++ t)%list /\
      (is_True (Cdap.kerberized (Cdap.self s)) = true -> Forall (carries (Cdap.self s)) t).

Section Requests.

Variable server : list ApiRequestSpecification -> ApiRequestSpecification -> result Response.
Variable py_repr : value -> string.
Variable str_upper : string -> string.

(** The GET of [get_pipeline_info], as it goes out. *)
Definition pipeline_info_request (c : Cdap.t) (pipeline_name : value)
  : ApiRequestSpecification :=
  dispatched c
    (mkSpec GET (Cdap.rest_url c ++ "/apps/" ++ Cdap.str py_repr pipeline_name)
            None None (Cdap.verify c) None).

(** The PUT of [create_pipeline], as it goes out. *)
Definition deploy_request (c : Cdap.t) (pipeline_name input_json : value)
  : ApiRequestSpecification :=
  dispatched c
    (mkSpec PUT (Cdap.rest_url c ++ "/apps/" ++ Cdap.str py_repr pipeline_name)
            None (Some input_json) (Cdap.verify c) None).

(** The POST of [stop_pipeline], as it goes out. *)
Definition stop_request (c : Cdap.t) (pipeline_name : value)
           (workflow_type : string) (workflow_id : value) (execution_id : string)
  : ApiRequestSpecification :=
  dispatched c
    (mkSpec POST
            (Cdap.rest_url c ++ "/apps/" ++ Cdap.str py_repr pipeline_name ++ "/"
               ++ workflow_type ++ "/" ++ Cdap.str py_repr workflow_id
               ++ "/runs/" ++ execution_id ++ "/stop")
            None None (Cdap.verify c) None).

(** The record [stop_all_pipelines] logs for a pipeline it could not stop. *)
Definition cannot_stop (pipeline : value) (e : exn) : LogRecord :=
  mkLog ERROR ("Cannot stop pipeline " ++ Cdap.str py_repr pipeline) (Some e).

(** One stop attempt per listed pipeline, in order, each starting from the
    state the previous one left; a raised exception is logged and the walk
    goes on. *)
Inductive stop_attempts : list value -> Cdap.State -> Cdap.State -> Prop :=
| attempts_done (s : Cdap.State) : stop_attempts [] s s
| attempts_stopped (p : value) (ps : list value) (s s1 s2 : Cdap.State) (r : Response) :
    Cdap.stop_pipeline server py_repr str_upper p s = (Ok r, s1) ->
    stop_attempts ps s1 s2 ->
    stop_attempts (p :: ps) s s2
| attempts_failed (p : value) (ps : list value) (s s1 s2 : Cdap.State) (e : exn) :
    Cdap.stop_pipeline server py_repr str_upper p s = (Raise e, s1) ->
    stop_attempts ps (logged s1 (cannot_stop p e)) s2 ->
    stop_attempts (p :: ps) s s2.

(** The public methods of an instance, as call descriptions. *)
Inductive operation : Type :=
| OpGetAccessToken (username password : value)
| OpExecuteRequest (spec : ApiRequestSpecification)
| OpApps (artifact_name artifact_version : value)
| OpGetAllPipelines (artifact_name artifact_version : value)
| OpCreatePipeline (pipeline_name overwrite_pipeline input_json : value)
| OpGetPipelineInfo (pipeline_name : value)
| OpGetPrograms (pipeline_name : value)
| OpGetWorkflow (pipeline_name : value)
| OpStartPipeline (pipeline_name : value)
| OpGetWorkflowExecutions (pipeline_name : value)
| OpGetWorkflowExecutionById (pipeline_name execution_id : value)
| OpGetLastExecutedWorkflowId (pipeline_name : value)
| OpGetLastExecutedWorkflowStatus (pipeline_name : value)
| OpGetWorkflowExecutionStatusById (pipeline_name execution_id : value)
| OpQueryDataset (query : value)
| OpGetQueryStatus (query_handle : value)
| OpDownloadQueryResults (query_handle : value)
| OpViewQueryResult (query_handle : value)
| OpSchema (query_handle : value)
| OpIsStreamingPipeline (pipeline_name : value)
| OpStopPipeline (pipeline_name : value)
| OpStopAllPipelines
| OpDeletePipeline (pipeline_name : value)
| OpDeleteAllPipelines (artifact_name artifact_version : value).

Definition is_login (op : operation) : bool :=
  match op with OpGetAccessToken _ _ => true | _ => false end.

(** The state a call leaves, whether it returned or raised. *)
Definition run (op : operation) (s : Cdap.State) : Cdap.State :=
  match op with
  | OpGetAccessToken u p => snd (Cdap.get_access_token server py_repr u p s)
  | OpExecuteRequest spec => snd (Cdap.execute_request server spec s)
  | OpApps a v => snd (Cdap.apps server a v s)
  | OpGetAllPipelines a v => snd (Cdap.get_all_pipelines server a v s)
  | OpCreatePipeline n o j => snd (Cdap.create_pipeline server py_repr n o j s)
  | OpGetPipelineInfo n => snd (Cdap.get_pipeline_info server py_repr n s)
  | OpGetPrograms n => snd (Cdap.get_programs server py_repr n s)
  | OpGetWorkflow n => snd (Cdap.get_workflow server py_repr str_upper n s)
  | OpStartPipeline n => snd (Cdap.start_pipeline server py_repr str_upper n s)
  | OpGetWorkflowExecutions n => snd (Cdap.get_workflow_executions server py_repr str_upper n s)
  | OpGetWorkflowExecutionById n e =>
      snd (Cdap.get_workflow_execution_by_id server py_repr str_upper n e s)
  | OpGetLastExecutedWorkflowId n =>
      snd (Cdap.get_last_executed_workflow_id server py_repr str_upper n s)
  | OpGetLastExecutedWorkflowStatus n =>
      snd (Cdap.get_last_executed_workflow_status server py_repr str_upper n s)
  | OpGetWorkflowExecutionStatusById n e =>
      snd (Cdap.get_workflow_execution_status_by_id server py_repr str_upper n e s)
  | OpQueryDataset q => snd (Cdap.query_dataset server q s)
  | OpGetQueryStatus h => snd (Cdap.get_query_status server py_repr h s)
  | OpDownloadQueryResults h => snd (Cdap.download_query_results server py_repr h s)
  | OpViewQueryResult h => snd (Cdap.view_query_result server py_repr h s)
  | OpSchema h => snd (Cdap.schema server py_repr h s)
  | OpIsStreamingPipeline n => snd (Cdap.is_streaming_pipeline server py_repr n s)
  | OpStopPipeline n => snd (Cdap.stop_pipeline server py_repr str_upper n s)
  | OpStopAllPipelines => snd (Cdap.stop_all_pipelines server py_repr str_upper s)
  | OpDeletePipeline n => snd (Cdap.delete_pipeline server py_repr n s)
  | OpDeleteAllPipelines a v => snd (Cdap.delete_all_pipelines server py_repr a v s)
  end.

(** The POST of [get_access_token]; it goes straight to the executor. *)
Definition login_request (node_ip ui_port username password : value)
  : ApiRequestSpecification :=
  mkSpec POST
         ("https://" ++ Cdap.str py_repr node_ip ++ ":" ++ Cdap.str py_repr ui_port ++ "/login")
         None (Some (VDict [("username", username); ("password", password)])) false None.

End Requests.

(** Reading a URL: is it under the API root [base] without a namespace,
    and does it mention the text [ns]? *)
Definition under_query_root (base u : string) : bool :=
  prefix (base ++ "/v3/data/explore/queries") u.

Definition mentions (ns u : string) : bool :=
  match index 0 ns u with
  | Some _ => true
  | None => false
  end.

Definition un_namespaced (c : Cdap.t) (ns : string) (req : ApiRequestSpecification) : Prop :=
  under_query_root (Cdap.rest_base_url c) (url req) = true /\ mentions ns (url req) = false.

Definition last_request (s : Cdap.State) : option ApiRequestSpecification :=
  last (map Some (Cdap.trace s)) None.

(** ** A small platform to run the client against *)

Module Demo.

Definition repr (v : value) : string := "<object>".

Definition upper_ascii (c : ascii) : ascii :=
  let n := nat_of_ascii c in
  if (97 <=? n)%nat && (n <=? 122)%nat then ascii_of_nat (n - 32) else c.

Definition is_byte (n : nat) (c : ascii) : bool := (nat_of_ascii c =? n)%nat.

(** A case mapping to run the client with: that of the ASCII letters, and
    of two letters beyond ASCII whose upper case is ASCII, the long s
    (bytes C5 BF, to "S") and the fl ligature (bytes EF AC 82, to "FL").
    On the text the demo platforms serve this is what [str.upper]
    computes. *)
Fixpoint upper (s : string) : string :=
  match s with
  | EmptyString => EmptyString
  | String c s1 =>
      match s1 with
      | EmptyString => String (upper_ascii c) EmptyString
      | String c2 s2 =>
          if is_byte 197 c && is_byte 191 c2 then String "S" (upper s2)
          else
            match s2 with
            | EmptyString => String (upper_ascii c) (upper s1)
            | String c3 s3 =>
                if is_byte 239 c && is_byte 172 c2 && is_byte 130 c3
                then String "F" (String "L" (upper s3))
                else String (upper_ascii c) (upper s1)
            end
      end
  end.

Definition programs_p : value :=
  VList [descriptor "Spark" "phase-1" "p";
         descriptor "Workflow" "DataPipelineWorkflow" "p";
         descriptor "spark" "phase-2" "p"].

Definition runs_p : value :=
  VList [execution 10 "a" "COMPLETED"; execution 30 "b" "FAILED"; execution 30 "c" "RUNNING"].

Definition ok (v : value) : result Response := Ok (mkResponse 200 (Some v)).

(** Pipeline "p" has a workflow with three runs, "q" a Spark program that
    never ran, and "ghost" is listed but gone. *)
Definition answer (u : string) : result Response :=
  if u =? "https://h:11011/login" then ok (VDict [("access_token", VStr "tok")])
  else if u =? "http://h:11015/v3/namespaces/default/apps" then
    ok (VList [VDict [("name", VStr "p")]; VDict [("name", VStr "ghost")];
               VDict [("name", VStr "q")]])
  else if u =? "http://h:11015/v3/namespaces/default/apps/p" then
    ok (VDict [("programs", programs_p); ("plugins", VList [])])
  else if u =? "http://h:11015/v3/namespaces/default/apps/q" then
    ok (VDict [("programs", VList [descriptor "spark" "SparkJob" "q"]);
               ("plugins", VList [])])
  else if u =? "http://h:11015/v3/namespaces/default/apps/p/workflows/DataPipelineWorkflow/runs"
  then ok runs_p
  else if u =? "http://h:11015/v3/namespaces/default/apps/q/spark/SparkJob/runs"
  then ok (VList [])
  else if u =? "http://h:11015/v3/namespaces/default/apps/p/workflows/DataPipelineWorkflow/runs/c"
  then ok (execution 30 "c" "RUNNING")
  else if u =? "http://h:11015/v3/namespaces/default/apps/p/workflows/DataPipelineWorkflow/runs/c/stop"
  then Ok (mkResponse 200 None)
  else Ok (mkResponse 404 None).

Definition server (_ : list ApiRequestSpecification) (req : ApiRequestSpecification)
  : result Response :=
  answer (url req).

Definition unset : Cdap.t :=
  Cdap.mkCdap VNone VNone VNone VNone VNone VNone "" "" "" true VNone.

Definition fresh : Cdap.State := Cdap.mkState unset [] [].

(** [Cdap("h", 11015, 11011, "admin", "secret")] *)
Definition client : Cdap.State :=
  snd (Cdap.init server repr (VStr "h") (VInt 11015) (VInt 11011)
                 (VStr "admin") (VStr "secret") VNone (VStr "default") fresh).

(** [Cdap("h", 11015, 11011, "admin", "secret", kerberized=True)] *)
Definition kerberized_client : Cdap.State :=
  snd (Cdap.init server repr (VStr "h") (VInt 11015) (VInt 11011)
                 (VStr "admin") (VStr "secret") (VBool true) (VStr "default") fresh).

End Demo.

(** ** Further vocabulary *)

(** The computation writes nothing to the logger, however it ends. *)
Definition quiet {A} (m : Cdap.M A) : Prop :=
  forall s, Cdap.logs (snd (m s)) = Cdap.logs s.

(** What every request built by a method looks like as it goes out: TLS
    verification as the instance has it, and the token of the instance if
    and only if the instance is kerberized. *)
Definition uniform_request (c : Cdap.t) (q : ApiRequestSpecification) : Prop :=
  verify q = Cdap.verify c /\
  bearer_token q = if is_True (Cdap.kerberized c) then Some (Cdap.access_token c) else None.

(** A specification as the methods build it: TLS verification as the
    instance has it, and no token yet. *)
Definition built_by (c : Cdap.t) (spec : ApiRequestSpecification) : Prop :=
  verify spec = Cdap.verify c /\ bearer_token spec = None.

(** The TLS-verification flag of a request. *)
Definition request_verify (q : ApiRequestSpecification) : bool := verify q.

(** [self] is kept and the trace grows by such requests only. *)
Definition uniform (s s' : Cdap.State) : Prop :=
  Cdap.self s' = Cdap.self s /\
  exists t,
    Cdap.trace s' = (Cdap.trace s ++ t)%list /\ Forall (uniform_request (Cdap.self s)) t.

(** Run on the instance [c], the computation keeps [self] and sends such
    requests only. *)
Definition uniformly (c : Cdap.t) {A} (m : Cdap.M A) : Prop :=
  forall s, Cdap.self s = c -> uniform s (snd (m s)).

(** The methods that write to the logger. *)
Definition is_logging (op : operation) : bool :=
  match op with
  | OpCreatePipeline _ _ _ | OpStopAllPipelines => true
  | _ => false
  end.

(** [execute_request] sends a specification of the caller's making. *)
Definition is_raw (op : operation) : bool :=
  match op with OpExecuteRequest _ => true | _ => false end.

Section MoreRequests.

Variable server : list ApiRequestSpecification -> ApiRequestSpecification -> result Response.
Variable py_repr : value -> string.
Variable str_upper : string -> string.

(** The GET of [apps], as it goes out: a filter is passed on only when it
    is truthy. *)
Definition apps_request (c : Cdap.t) (artifact_name artifact_version : value)
  : ApiRequestSpecification :=
  dispatched c
    (mkSpec GET (Cdap.rest_url c ++ "/apps")
            (Some ((if truthy artifact_name then [("artifactName", artifact_name)] else [])
                   ++ (if truthy artifact_version
                       then [("artifactVersion", artifact_version)] else []))%list)
            None (Cdap.verify c) None).

(** The DELETE of [delete_pipeline], as it goes out. *)
Definition delete_request (c : Cdap.t) (pipeline_name : value) : ApiRequestSpecification :=
  dispatched c
    (mkSpec DELETE (Cdap.rest_url c ++ "/apps/" ++ Cdap.str py_repr pipeline_name)
            None None (Cdap.verify c) None).

(** The POST of [start_pipeline], as it goes out. *)
Definition start_request (c : Cdap.t) (app ty nm : value) : ApiRequestSpecification :=
  dispatched c
    (mkSpec POST (Cdap.rest_url c ++ "/start") None
            (Some (VList [VDict [("appId", VStr (Cdap.str py_repr app));
                                 ("programType", VStr (Cdap.str py_repr ty));
                                 ("programId", VStr (Cdap.str py_repr nm))]]))
            (Cdap.verify c) None).

(** The GET of [get_workflow_executions], and that of
    [get_workflow_execution_by_id], as they go out. *)
Definition runs_request (c : Cdap.t) (pipeline_name : value)
           (workflow_type : string) (workflow_id : value) : ApiRequestSpecification :=
  dispatched c
    (mkSpec GET (Cdap.rest_url c ++ "/apps/" ++ Cdap.str py_repr pipeline_name ++ "/"
                   ++ workflow_type ++ "/" ++ Cdap.str py_repr workflow_id ++ "/runs")
            None None (Cdap.verify c) None).

Definition run_request (c : Cdap.t) (pipeline_name : value)
           (workflow_type : string) (workflow_id execution_id : value)
  : ApiRequestSpecification :=
  dispatched c
    (mkSpec GET (Cdap.rest_url c ++ "/apps/" ++ Cdap.str py_repr pipeline_name ++ "/"
                   ++ workflow_type ++ "/" ++ Cdap.str py_repr workflow_id ++ "/runs/"
                   ++ Cdap.str py_repr execution_id)
            None None (Cdap.verify c) None).

(** The platform answers each request of [reqs], sent one after the other
    on top of [hist]. *)
Fixpoint all_answered (hist reqs : list ApiRequestSpecification) : Prop :=
  match reqs with
  | [] => True
  | q :: rest => (exists r, server hist q = Ok r) /\ all_answered (hist ++ [q])%list rest
  end.

(** A session: the calls of [ops], one after the other. *)
Definition run_all (ops : list operation) (s : Cdap.State) : Cdap.State :=
  fold_left (fun s op => run server py_repr str_upper op s) ops s.

End MoreRequests.

Module Flaky.

(** The demo platform with two changes: nothing about "ghost" gets
    through, and there is a pipeline "s" that reads a stream and has no
    program to run. *)
Definition server (hist : list ApiRequestSpecification) (req : ApiRequestSpecification)
  : result Response :=
  if url req =? "http://h:11015/v3/namespaces/default/apps/ghost"
  then Raise (ConnectionError "connection refused")
  else if url req =? "http://h:11015/v3/namespaces/default/apps/s"
  then Demo.ok (VDict [("programs", VList [descriptor "Service" "svc" "s"]);
                       ("plugins", VList [VDict [("type", VStr "transform")];
                                          VDict [("type", VStr "streamingsource")]])])
  else Demo.server hist req.

End Flaky.

(** * Properties *)

(** ** Workflows *)

Section WorkflowFacts.

Import Workflows.

Variable str_upper : string -> string.

Lemma loop_step (acc p : Py.value) (rest : list Py.value) (u : string) :
  program_type str_upper p = Some u ->
  get_cdap_workflow_loop str_upper acc (p :: rest) =
    if u =? "WORKFLOW" then Ok p
    else if u =? "SPARK" then get_cdap_workflow_loop str_upper p rest
    else get_cdap_workflow_loop str_upper acc rest.
Proof.
  unfold program_type. intros H. simpl.
  destruct (getitem p "type") as [[| | |t| |]|]; try discriminate.
  injection H as <-. reflexivity.
Qed.

Lemma loop_skips_prefix (pre : list Py.value) :
  Forall (is_descriptor str_upper) pre ->
  Forall (fun q => ~ is_workflow str_upper q) pre ->
  forall acc rest, exists acc',
    get_cdap_workflow_loop str_upper acc (pre ++ rest)%list
    = get_cdap_workflow_loop str_upper acc' rest.
Proof.
  induction pre as [|q pre IH]; intros Hd Hw acc rest.
  - exists acc. reflexivity.
  - inversion Hd as [|? ? Hq Hd']; inversion Hw as [|? ? Hnq Hw']; subst.
    unfold is_descriptor in Hq. destruct (program_type str_upper q) as [u|] eqn:E; [|congruence].
    cbn [app]. rewrite (loop_step _ _ _ _ E).
    destruct (u =? "WORKFLOW") eqn:Ew.
    + apply String.eqb_eq in Ew. subst u. contradiction.
    + destruct (u =? "SPARK"); apply IH; assumption.
Qed.

Lemma loop_keeps_acc (l : list Py.value) :
  Forall (is_descriptor str_upper) l ->
  Forall (fun q => ~ is_workflow str_upper q) l ->
  Forall (fun q => ~ is_spark str_upper q) l ->
  forall acc, get_cdap_workflow_loop str_upper acc l = Ok acc.
Proof.
  induction l as [|q l IH]; intros Hd Hw Hs acc.
  - reflexivity.
  - inversion Hd as [|? ? Hq Hd']; inversion Hw as [|? ? Hnw Hw'];
      inversion Hs as [|? ? Hns Hs']; subst.
    unfold is_descriptor in Hq. destruct (program_type str_upper q) as [u|] eqn:E; [|congruence].
    rewrite (loop_step _ _ _ _ E).
    destruct (u =? "WORKFLOW") eqn:Ew.
    + apply String.eqb_eq in Ew. subst u. contradiction.
    + destruct (u =? "SPARK") eqn:Es.
      * apply String.eqb_eq in Es. subst u. contradiction.
      * apply IH; assumption.
Qed.

(** C1. [get_cdap_workflow] returns the first entry whose upper-cased type
    is "WORKFLOW"; failing that, the last entry whose upper-cased type is
    "SPARK"; failing both (the empty list included), [None].  Upper case
    is what [str.upper] makes of the type, whatever its case mapping. *)
Theorem get_cdap_workflow_selection (l : list Py.value) :
  (forall pre p post,
      l = (pre ++ p :: post)%list ->
      Forall (is_descriptor str_upper) pre ->
      Forall (fun q => ~ is_workflow str_upper q) pre ->
      is_workflow str_upper p ->
      get_cdap_workflow str_upper (VList l) = Ok p) /\
  (forall pre p post,
      l = (pre ++ p :: post)%list ->
      Forall (is_descriptor str_upper) l ->
      Forall (fun q => ~ is_workflow str_upper q) l ->
      is_spark str_upper p ->
      Forall (fun q => ~ is_spark str_upper q) post ->
      get_cdap_workflow str_upper (VList l) = Ok p) /\
  (Forall (is_descriptor str_upper) l ->
   Forall (fun q => ~ is_workflow str_upper q) l ->
   Forall (fun q => ~ is_spark str_upper q) l ->
   get_cdap_workflow str_upper (VList l) = Ok VNone).
Proof.
  unfold get_cdap_workflow; cbn [iter rbind].
  split; [|split].
  - intros pre p post -> Hd Hw Hp.
    destruct (loop_skips_prefix _ Hd Hw VNone (p :: post)) as [acc' ->].
    rewrite (loop_step _ _ _ _ Hp). reflexivity.
  - intros pre p post -> Hd Hw Hp Hs.
    apply Forall_app in Hd as [Hd1 Hd2]. apply Forall_app in Hw as [Hw1 Hw2].
    destruct (loop_skips_prefix _ Hd1 Hw1 VNone (p :: post)) as [acc' ->].
    rewrite (loop_step _ _ _ _ Hp). cbn.
    inversion Hd2; inversion Hw2; subst.
    apply loop_keeps_acc; assumption.
  - intros Hd Hw Hs. apply loop_keeps_acc; assumption.
Qed.

(** C3. [get_api_workflow_name] looks at its argument through [upper] only:
    a string that [str.upper] maps to "WORKFLOW" gives "workflows", one it
    maps to "SPARK" gives "spark", and any other string raises the
    [KeyError] of the failed member lookup, whatever the case mapping. *)
Theorem get_api_workflow_name_cases (s : string) :
  (str_upper s = "WORKFLOW" -> get_api_workflow_name str_upper (VStr s) = Ok "workflows") /\
  (str_upper s = "SPARK" -> get_api_workflow_name str_upper (VStr s) = Ok "spark") /\
  (str_upper s <> "WORKFLOW" -> str_upper s <> "SPARK" ->
   get_api_workflow_name str_upper (VStr s) = Raise (KeyError (str_upper s))).
Proof.
  unfold get_api_workflow_name, by_name; cbn [upper rbind name].
  repeat split.
  - intros ->. reflexivity.
  - intros ->. reflexivity.
  - intros Hw Hs.
    apply String.eqb_neq in Hw, Hs. rewrite Hw, Hs. reflexivity.
Qed.

End WorkflowFacts.

(** ** Strings *)

Lemma append_assoc (a b c : string) : (a ++ b) ++ c = a ++ (b ++ c).
Proof.
  induction a as [|x a IH]; cbn; [reflexivity|]. rewrite IH. reflexivity.
Qed.

(** ** Sorting the (start time, index) pairs *)

Section SortFacts.

Lemma pair_ltb_int (a b : Z * nat) :
  pair_ltb (int_key a) (int_key b) = Ok (key_ltb a b).
Proof.
  destruct a as [x i], b as [y j]. unfold pair_ltb, key_ltb. cbn.
  destruct (x =? y)%Z; reflexivity.
Qed.

Lemma insert_reverse_int (x : Z * nat) (l : list (Z * nat)) :
  insert_reverse (int_key x) (map int_key l) = Ok (map int_key (ins x l)).
Proof.
  induction l as [|y l IH]; [reflexivity|].
  cbn [map insert_reverse ins]. rewrite pair_ltb_int. cbn [rbind].
  destruct (key_ltb x y); [|reflexivity].
  rewrite IH. reflexivity.
Qed.

Lemma sorted_reverse_int (l : list (Z * nat)) :
  sorted_reverse (map int_key l) = Ok (map int_key (isort l)).
Proof.
  induction l as [|x l IH]; [reflexivity|].
  cbn [map sorted_reverse isort]. rewrite IH. cbn [rbind].
  apply insert_reverse_int.
Qed.

Lemma key_ltb_true (a b : Z * nat) : key_ltb a b = true -> key_le a b.
Proof.
  unfold key_ltb, key_le. destruct (fst a =? fst b)%Z eqn:E.
  - intros H. apply Z.eqb_eq in E. apply Nat.ltb_lt in H. right. lia.
  - intros H. apply Z.ltb_lt in H. left. exact H.
Qed.

Lemma key_ltb_false (a b : Z * nat) : key_ltb a b = false -> key_le b a.
Proof.
  unfold key_ltb, key_le. destruct (fst a =? fst b)%Z eqn:E.
  - intros H. apply Z.eqb_eq in E. apply Nat.ltb_ge in H. right. lia.
  - intros H. apply Z.eqb_neq in E. apply Z.ltb_ge in H. left. lia.
Qed.

Lemma key_le_refl (a : Z * nat) : key_le a a.
Proof. unfold key_le. right. lia. Qed.

Lemma key_le_trans (a b c : Z * nat) : key_le a b -> key_le b c -> key_le a c.
Proof. unfold key_le. lia. Qed.

(** The head of the sorted list is a greatest element of the input. *)
Lemma isort_head (l : list (Z * nat)) :
  l <> [] ->
  exists m rest, isort l = m :: rest /\ In m l /\ forall y, In y l -> key_le y m.
Proof.
  induction l as [|x l IH]; [congruence|]. intros _.
  destruct l as [|x' l'].
  - exists x, []. cbn. repeat split; auto.
    intros y [<-|[]]. apply key_le_refl.
  - destruct IH as (m & rest & Hs & Hin & Hmax); [congruence|].
    cbn [isort] in *. rewrite Hs. cbn [ins].
    destruct (key_ltb x m) eqn:E.
    + exists m, (ins x rest). repeat split; [right; exact Hin|].
      intros y [<-|Hy]; [apply key_ltb_true; exact E|apply Hmax; exact Hy].
    + exists x, (m :: rest). repeat split; [left; reflexivity|].
      intros y [<-|Hy]; [apply key_le_refl|].
      apply key_le_trans with m; [apply Hmax; exact Hy|apply key_ltb_false; exact E].
Qed.

Lemma keys_from_In (ts : list Z) :
  forall i t j, In (t, j) (keys_from i ts) <-> (i <= j /\ nth_error ts (j - i) = Some t).
Proof.
  induction ts as [|t0 ts IH]; intros i t j; cbn [keys_from In].
  - split; [tauto|]. intros [_ H]. destruct (j - i); discriminate.
  - rewrite IH. split.
    + intros [H|[Hle H]].
      * injection H as <- <-. split; [lia|]. rewrite Nat.sub_diag. reflexivity.
      * split; [lia|]. replace (j - i) with (S (j - S i)) by lia. exact H.
    + intros [Hle H]. destruct (Nat.eq_dec i j) as [<-|Hne].
      * rewrite Nat.sub_diag in H. injection H as <-. left. reflexivity.
      * right. split; [lia|]. replace (j - i) with (S (j - S i)) in H by lia. exact H.
Qed.

(** The comprehension over [enumerate] yields the integer keys when every
    item carries an integer "starting". *)
Lemma keys_of_executions (items : list value) (ts : list Z) :
  Forall2 (fun e t => getitem e "starting" = Ok (VInt t)) items ts ->
  forall i,
    mapR (fun ix => starting <-? getitem (snd ix) "starting"; Ok (starting, fst ix))
         (enumerate_from i items)
    = Ok (map int_key (keys_from i ts)).
Proof.
  induction 1 as [|e t items ts He _ IH]; intros i; [reflexivity|].
  cbn [enumerate_from mapR keys_from map snd fst]. rewrite He. cbn [rbind].
  rewrite IH. reflexivity.
Qed.

End SortFacts.

(** ** The client *)

Section ClientFacts.

Import Cdap.

Variable server : list ApiRequestSpecification -> ApiRequestSpecification -> result Response.
Variable py_repr : value -> string.
Variable str_upper : string -> string.

Local Abbreviation str := (Cdap.str py_repr).
Local Abbreviation execute_request := (Cdap.execute_request server).
Local Abbreviation get_pipeline_info := (Cdap.get_pipeline_info server py_repr).
Local Abbreviation get_programs := (Cdap.get_programs server py_repr).
Local Abbreviation get_workflow := (Cdap.get_workflow server py_repr str_upper).
Local Abbreviation get_workflow_executions := (Cdap.get_workflow_executions server py_repr str_upper).
Local Abbreviation get_workflow_execution_by_id :=
  (Cdap.get_workflow_execution_by_id server py_repr str_upper).
Local Abbreviation last_executed_of := (Cdap.last_executed_of py_repr).
Local Abbreviation get_last_executed_workflow_id :=
  (Cdap.get_last_executed_workflow_id server py_repr str_upper).
Local Abbreviation get_last_executed_workflow_status :=
  (Cdap.get_last_executed_workflow_status server py_repr str_upper).
Local Abbreviation _update_status := (Cdap._update_status server py_repr str_upper).
Local Abbreviation create_pipeline := (Cdap.create_pipeline server py_repr).
Local Abbreviation stop_pipeline := (Cdap.stop_pipeline server py_repr str_upper).
Local Abbreviation stop_all_pipelines := (Cdap.stop_all_pipelines server py_repr str_upper).
Local Abbreviation get_all_pipelines := (Cdap.get_all_pipelines server).

Lemma bind_ok {A B} (m : M A) (k : A -> M B) (s s' : State) (a : A) :
  m s = (Ok a, s') -> bind m k s = k a s'.
Proof. unfold bind. intros ->. reflexivity. Qed.

Lemma execute_request_sent (spec : ApiRequestSpecification) (s : State) :
  execute_request spec s =
    (server (trace s) (dispatched (self s) spec), sent s (dispatched (self s) spec)).
Proof. reflexivity. Qed.

(** The last run of a decoded, well-formed execution list. *)
Lemma last_executed_of_max (execs : list value) :
  execs <> [] ->
  Forall (fun e => exists t rid,
              getitem e "starting" = Ok (VInt t) /\ getitem e "runid" = Ok rid) execs ->
  exists i e t rid,
    nth_error execs i = Some e /\
    getitem e "starting" = Ok (VInt t) /\
    getitem e "runid" = Ok rid /\
    (forall j e' t',
        nth_error execs j = Some e' ->
        getitem e' "starting" = Ok (VInt t') ->
        (t' < t)%Z \/ (t' = t /\ j <= i)) /\
    last_executed_of (VList execs) = Ok (str rid).
Proof.
  intros Hne Hwf.
  assert (Hts : exists ts, Forall2 (fun e t => getitem e "starting" = Ok (VInt t)) execs ts).
  { clear Hne. induction Hwf as [|e l (t & rid & Ht & _) _ (ts & IH)].
    - exists []. constructor.
    - exists (t :: ts). constructor; assumption. }
  destruct Hts as (ts & Hts).
  assert (Hkne : keys_from 0 ts <> []).
  { destruct Hts; [congruence|]. cbn. congruence. }
  destruct (isort_head _ Hkne) as ([t i] & rest & Hsort & Hin & Hmax).
  apply keys_from_In in Hin. destruct Hin as [_ Hnth]. rewrite Nat.sub_0_r in Hnth.
  assert (He : exists e, nth_error execs i = Some e /\ getitem e "starting" = Ok (VInt t)).
  { clear - Hts Hnth. revert i Hnth.
    induction Hts as [|e0 t0 l ts0 H0 _ IH]; intros i Hnth.
    - destruct i; discriminate.
    - destruct i as [|i].
      + injection Hnth as <-. exists e0. split; [reflexivity|exact H0].
      + apply IH. exact Hnth. }
  destruct He as (e & Hei & Het).
  assert (Hrid : exists rid, getitem e "runid" = Ok rid).
  { apply nth_error_In in Hei. rewrite Forall_forall in Hwf.
    destruct (Hwf _ Hei) as (_ & rid & _ & Hr). exists rid. exact Hr. }
  destruct Hrid as (rid & Hrid).
  exists i, e, t, rid. repeat split; try assumption.
  - intros j e' t' Hj Ht'.
    assert (Hjt : nth_error ts j = Some t').
    { clear - Hts Hj Ht'. revert j Hj.
      induction Hts as [|e0 t0 l ts0 H0 _ IH]; intros j Hj.
      - destruct j; discriminate.
      - destruct j as [|j].
        + injection Hj as ->. rewrite H0 in Ht'. injection Ht' as ->. reflexivity.
        + apply IH. exact Hj. }
    specialize (Hmax (t', j)).
    unfold key_le in Hmax. cbn [fst snd] in Hmax. apply Hmax.
    apply keys_from_In. split; [lia|]. rewrite Nat.sub_0_r. exact Hjt.
  - unfold Cdap.last_executed_of. cbn [len rbind iter].
    destruct execs as [|e0 execs']; [congruence|]. cbn [List.length Nat.eqb].
    unfold enumerate. rewrite (keys_of_executions _ _ Hts 0). cbn [rbind].
    rewrite sorted_reverse_int, Hsort. cbn [rbind map int_key snd fst getindex].
    rewrite Hei. cbn [rbind]. rewrite Hrid. reflexivity.
Qed.

Lemma get_last_executed_workflow_id_unfold (pipeline_name : value) (s s1 : State)
      (r : Response) :
  get_workflow_executions pipeline_name s = (Ok r, s1) ->
  get_last_executed_workflow_id pipeline_name s =
    (rbind (Response_json r) last_executed_of, s1).
Proof.
  intros H. unfold Cdap.get_last_executed_workflow_id.
  rewrite (bind_ok _ _ _ _ _ H). unfold bind, lift.
  destruct (Response_json r); reflexivity.
Qed.

(** C2. With the execution list fetched and decoded: an empty list gives
    the empty string; a non-empty list of runs with integer start times
    gives [str] of the "runid" of the run with the greatest start time, the
    greatest index among equals; on the three runs started at 10, 30, 30
    with ids "a", "b", "c" the answer is "c". *)
Theorem get_last_executed_workflow_id_selection
        (pipeline_name : value) (s s1 : State) (r : Response) (execs : list value) :
  get_workflow_executions pipeline_name s = (Ok r, s1) ->
  body r = Some (VList execs) ->
  (execs = [] -> get_last_executed_workflow_id pipeline_name s = (Ok "", s1)) /\
  (execs <> [] ->
   Forall (fun e => exists t rid,
               getitem e "starting" = Ok (VInt t) /\ getitem e "runid" = Ok rid) execs ->
   exists i e t rid,
     nth_error execs i = Some e /\
     getitem e "starting" = Ok (VInt t) /\
     getitem e "runid" = Ok rid /\
     (forall j e' t',
         nth_error execs j = Some e' ->
         getitem e' "starting" = Ok (VInt t') ->
         (t' < t)%Z \/ (t' = t /\ j <= i)) /\
     get_last_executed_workflow_id pipeline_name s = (Ok (str rid), s1)) /\
  (forall st1 st2 st3,
      execs = [execution 10 "a" st1; execution 30 "b" st2; execution 30 "c" st3] ->
      get_last_executed_workflow_id pipeline_name s = (Ok "c", s1)).
Proof.
  intros Hfetch Hbody.
  rewrite (get_last_executed_workflow_id_unfold _ _ _ _ Hfetch).
  unfold Response_json. rewrite Hbody. cbn [rbind].
  split; [|split].
  - intros ->. reflexivity.
  - intros Hne Hwf.
    destruct (last_executed_of_max _ Hne Hwf) as (i & e & t & rid & H1 & H2 & H3 & H4 & H5).
    exists i, e, t, rid. rewrite H5. repeat split; assumption.
  - intros st1 st2 st3 ->. reflexivity.
Qed.

(** C4. When the resolved run id is the empty string the status is
    "NOT_EXECUTED" and the state is the one the resolution left: nothing
    further was requested.  For any other run id the run is fetched with a
    GET on ".../runs/<run id>" and [str] of its "status" is returned. *)
Theorem get_last_executed_workflow_status_cases (pipeline_name : value) (s s1 : State) :
  (get_last_executed_workflow_id pipeline_name s = (Ok "", s1) ->
   get_last_executed_workflow_status pipeline_name s = (Ok "NOT_EXECUTED", s1)) /\
  (forall run_id r s2 j status,
      run_id <> "" ->
      get_last_executed_workflow_id pipeline_name s = (Ok run_id, s1) ->
      get_workflow_execution_by_id pipeline_name (VStr run_id) s1 = (Ok r, s2) ->
      body r = Some j ->
      getitem j "status" = Ok status ->
      get_last_executed_workflow_status pipeline_name s = (Ok (str status), s2) /\
      exists before req base,
        trace s2 = (trace s1 ++ before ++ [req])%list /\
        request_type req = GET /\
        url req = base ++ "/runs/" ++ run_id /\
        server (trace s1 ++ before) req = Ok r).
Proof.
  split.
  - intros H. unfold Cdap.get_last_executed_workflow_status.
    rewrite (bind_ok _ _ _ _ _ H). reflexivity.
  - intros run_id r s2 j status Hne Hid Hrun Hbody Hstatus.
    split.
    + unfold Cdap.get_last_executed_workflow_status.
      rewrite (bind_ok _ _ _ _ _ Hid). unfold Cdap._update_status.
      cbn [eqb]. apply String.eqb_neq in Hne. rewrite Hne.
      rewrite (bind_ok _ _ _ _ _ Hrun).
      unfold bind, lift, ret, Response_json. rewrite Hbody, Hstatus. reflexivity.
    + clear Hid. unfold Cdap.get_workflow_execution_by_id in Hrun.
      unfold bind at 1 in Hrun.
      destruct (get_workflow pipeline_name s1) as [[wf|e] sa] eqn:Ewf; [|discriminate].
      assert (Hsa : exists before, trace sa = (trace s1 ++ before)%list /\ self sa = self s1).
      { unfold Cdap.get_workflow, Cdap.get_programs, Cdap.get_pipeline_info in Ewf.
        unfold bind, lift, get_self in Ewf. rewrite execute_request_sent in Ewf.
        match type of Ewf with context [sent s1 ?q] => exists [q] end.
        destruct (server _ _); [|discriminate].
        destruct (Response_json _); [|discriminate].
        destruct (getitem _ "programs"); [|discriminate].
        destruct (Workflows.get_cdap_workflow _ _); inversion Ewf; subst. split; reflexivity. }
      destruct Hsa as (before & Htr & Hself).
      unfold bind, lift, get_self in Hrun.
      destruct (getitem wf "name") as [nm|]; [|discriminate].
      destruct (getitem wf "type") as [ty|]; [|discriminate].
      destruct (Workflows.get_api_workflow_name str_upper ty) as [seg|]; [|discriminate].
      rewrite execute_request_sent in Hrun.
      match type of Hrun with context [sent sa ?q] => set (req := q) in * end.
      exists before, req,
        (rest_url (self sa) ++ "/apps/" ++ str pipeline_name ++ "/" ++ seg ++ "/" ++ str nm).
      inversion Hrun as [[Hr Hs2]]. cbn [trace sent]. rewrite Htr, <- app_assoc.
      repeat split.
      * unfold req, dispatched. destruct (is_True _); reflexivity.
      * unfold req, dispatched.
        destruct (is_True _); cbn [url set_bearer_token];
          rewrite !append_assoc; reflexivity.
Qed.

(** *** Frame: what no method touches *)

Lemma bind_assoc {A B C} (m : M A) (f : A -> M B) (g : B -> M C) (s : State) :
  bind (bind m f) g s = bind m (fun x => bind (f x) g) s.
Proof. unfold bind. destruct (m s) as [[a|e] s']; reflexivity. Qed.

Lemma framed_silent {A} (m : M A) :
  (forall s, self (snd (m s)) = self s /\ trace (snd (m s)) = trace s) -> framed m.
Proof.
  intros H s. destruct (H s) as [Hs Ht]. split; [exact Hs|].
  exists []. rewrite app_nil_r. split; [exact Ht|constructor].
Qed.

Lemma framed_ret {A} (a : A) : framed (ret a).
Proof. apply framed_silent. intros s. split; reflexivity. Qed.

Lemma framed_lift {A} (r : result A) : framed (lift r).
Proof. apply framed_silent. intros s. split; reflexivity. Qed.

Lemma framed_get_self : framed get_self.
Proof. apply framed_silent. intros s. split; reflexivity. Qed.

Lemma framed_log (lv : Level) (msg : string) (e : option exn) : framed (log lv msg e).
Proof. apply framed_silent. intros s. split; reflexivity. Qed.

Lemma framed_execute_request (spec : ApiRequestSpecification) :
  framed (execute_request spec).
Proof.
  intros s. rewrite execute_request_sent. split; [reflexivity|].
  exists [dispatched (self s) spec]. split; [reflexivity|].
  intros Hk. constructor; [|constructor].
  unfold carries, dispatched. rewrite Hk. reflexivity.
Qed.

Lemma framed_seq (s s1 s2 : State) (t1 t2 : list ApiRequestSpecification) :
  self s1 = self s ->
  trace s1 = (trace s ++ t1)%list ->
  (is_True (kerberized (self s)) = true -> Forall (carries (self s)) t1) ->
  self s2 = self s1 ->
  trace s2 = (trace s1 ++ t2)%list ->
  (is_True (kerberized (self s1)) = true -> Forall (carries (self s1)) t2) ->
  self s2 = self s /\
  exists t, trace s2 = (trace s ++ t)%list /\
            (is_True (kerberized (self s)) = true -> Forall (carries (self s)) t).
Proof.
  intros Hs1 Ht1 Hc1 Hs2 Ht2 Hc2. split; [congruence|].
  exists (t1 ++ t2)%list. split.
  - rewrite Ht2, Ht1, app_assoc. reflexivity.
  - intros Hk. apply Forall_app. split; [auto|].
    rewrite Hs1 in Hc2. auto.
Qed.

Lemma framed_bind {A B} (m : M A) (k : A -> M B) :
  framed m -> (forall a, framed (k a)) -> framed (bind m k).
Proof.
  intros Hm Hk s. unfold bind. destruct (Hm s) as [Hs [t [Ht Hc]]].
  destruct (m s) as [[a|e] s'] eqn:E; cbn [snd] in *.
  - destruct (Hk a s') as [Hs' [t' [Ht' Hc']]].
    eapply framed_seq; eassumption.
  - split; [exact Hs|]. exists t. split; assumption.
Qed.

Lemma framed_try_except {A} (m : M A) (h : exn -> M A) :
  framed m -> (forall e, framed (h e)) -> framed (try_except m h).
Proof.
  intros Hm Hh s. unfold try_except. destruct (Hm s) as [Hs [t [Ht Hc]]].
  destruct (m s) as [[a|e] s'] eqn:E; cbn [snd] in *.
  - split; [exact Hs|]. exists t. split; assumption.
  - destruct (Hh e s') as [Hs' [t' [Ht' Hc']]].
    eapply framed_seq; eassumption.
Qed.

Lemma framed_for_each {A} (l : list A) (f : A -> M unit) :
  (forall a, framed (f a)) -> framed (for_each l f).
Proof.
  intros Hf. induction l as [|x l IH]; cbn [for_each].
  - apply framed_ret.
  - apply framed_bind; [apply Hf|intros _; exact IH].
Qed.

Ltac framed_step :=
  first
    [ apply framed_ret | apply framed_lift | apply framed_get_self | apply framed_log
    | apply framed_execute_request
    | apply framed_bind; [|intro]
    | apply framed_try_except; [|intro]
    | apply framed_for_each; intro
    | match goal with
      | |- framed (if ?b then _ else _) => destruct b
      end ].

Ltac framed_solve := repeat framed_step.

Lemma framed_get_pipeline_info (p : value) : framed (get_pipeline_info p).
Proof. unfold Cdap.get_pipeline_info. framed_solve. Qed.

Lemma framed_get_workflow (p : value) : framed (get_workflow p).
Proof.
  unfold Cdap.get_workflow, Cdap.get_programs. framed_solve.
Qed.

Lemma framed_get_workflow_executions (p : value) : framed (get_workflow_executions p).
Proof.
  unfold Cdap.get_workflow_executions. framed_solve.
Qed.

Lemma framed_get_last_executed_workflow_id (p : value) :
  framed (get_last_executed_workflow_id p).
Proof.
  unfold Cdap.get_last_executed_workflow_id. framed_solve.
Qed.

Lemma framed_stop_pipeline (p : value) : framed (stop_pipeline p).
Proof.
  unfold Cdap.stop_pipeline. framed_solve.
Qed.

Lemma framed_get_all_pipelines (a b : value) : framed (get_all_pipelines a b).
Proof. unfold Cdap.get_all_pipelines, Cdap.apps. framed_solve. Qed.

Lemma get_pipeline_info_sent (p : value) (s : State) :
  get_pipeline_info p s =
    (server (trace s) (pipeline_info_request py_repr (self s) p),
     sent s (pipeline_info_request py_repr (self s) p)).
Proof. reflexivity. Qed.

(** *** create_pipeline *)

(** C5. With [overwrite_pipeline = False] and a probe answered with status
    200, [create_pipeline] returns [False]; the one request it sends is the
    probe GET, so no PUT goes out. *)
Theorem create_pipeline_existing
        (pipeline_name input_json : value) (s s1 : State) (r : Response) :
  get_pipeline_info pipeline_name s = (Ok r, s1) ->
  status_code r = 200%Z ->
  exists s',
    create_pipeline pipeline_name (VBool false) input_json s = (Ok NotCreated, s') /\
    self s' = self s /\
    trace s' = (trace s ++ [pipeline_info_request py_repr (self s) pipeline_name])%list /\
    request_type (pipeline_info_request py_repr (self s) pipeline_name) = GET.
Proof.
  intros Hprobe Hcode.
  exists (logged s1 (mkLog WARNING ("Pipeline " ++ str pipeline_name ++ " already exists") None)).
  split.
  { unfold Cdap.create_pipeline. cbn [is_False].
    rewrite bind_assoc, (bind_ok _ _ _ _ _ Hprobe).
    unfold bind at 1. cbn [ret]. rewrite Hcode. reflexivity. }
  rewrite get_pipeline_info_sent in Hprobe. inversion Hprobe as [[Hr Hs1]].
  repeat split.
  unfold pipeline_info_request, dispatched. destruct (is_True _); reflexivity.
Qed.

(** C10. Whatever [overwrite_pipeline] is, short of the object [False], no
    probe is sent: the one request is the PUT, and the result is what the
    platform answers to it. *)
Theorem create_pipeline_without_probe
        (pipeline_name overwrite_pipeline input_json : value) (s : State) :
  overwrite_pipeline <> VBool false ->
  create_pipeline pipeline_name overwrite_pipeline input_json s =
    (match server (trace s) (deploy_request py_repr (self s) pipeline_name input_json) with
     | Ok r => Ok (Deployed r)
     | Raise e => Raise e
     end,
     sent s (deploy_request py_repr (self s) pipeline_name input_json)) /\
  request_type (deploy_request py_repr (self s) pipeline_name input_json) = PUT.
Proof.
  intros Hne.
  assert (Hf : is_False overwrite_pipeline = false).
  { destruct overwrite_pipeline as [|[|]| | | |]; try reflexivity. congruence. }
  split.
  - unfold Cdap.create_pipeline. rewrite Hf.
    unfold bind, ret, get_self. rewrite execute_request_sent.
    fold (deploy_request py_repr (self s) pipeline_name input_json).
    destruct (server _ _); reflexivity.
  - unfold deploy_request, dispatched. destruct (is_True _); reflexivity.
Qed.

(** *** stop_pipeline *)

(** C7. With the empty run id resolved, and the workflow resolved again,
    [stop_pipeline] sends the POST all the same; its URL ends in
    "/runs//stop". *)
Theorem stop_pipeline_never_executed
        (pipeline_name workflow workflow_id ty : value) (workflow_type : string)
        (s s1 s2 : State) :
  get_last_executed_workflow_id pipeline_name s = (Ok "", s1) ->
  get_workflow pipeline_name s1 = (Ok workflow, s2) ->
  getitem workflow "name" = Ok workflow_id ->
  getitem workflow "type" = Ok ty ->
  Workflows.get_api_workflow_name str_upper ty = Ok workflow_type ->
  let req := stop_request py_repr (self s2) pipeline_name workflow_type workflow_id "" in
  stop_pipeline pipeline_name s = (server (trace s2) req, sent s2 req) /\
  request_type req = POST /\
  url req = rest_url (self s2) ++ "/apps/" ++ str pipeline_name ++ "/" ++ workflow_type
              ++ "/" ++ str workflow_id ++ "/runs//stop".
Proof.
  intros Hid Hwf Hname Hty Hseg req. repeat split.
  - unfold Cdap.stop_pipeline.
    rewrite (bind_ok _ _ _ _ _ Hid), (bind_ok _ _ _ _ _ Hwf).
    unfold bind, lift, get_self. rewrite Hname, Hty, Hseg.
    rewrite execute_request_sent. reflexivity.
  - unfold req, stop_request, dispatched. destruct (is_True _); reflexivity.
  - unfold req, stop_request, dispatched. destruct (is_True _); reflexivity.
Qed.

(** Every stop attempt opens with the GET of the pipeline's info. *)
Lemma stop_pipeline_opens_with_probe (p : value) (s : State) :
  self (snd (stop_pipeline p s)) = self s /\
  exists rest,
    trace (snd (stop_pipeline p s)) =
      (trace s ++ pipeline_info_request py_repr (self s) p :: rest)%list.
Proof.
  split; [apply framed_stop_pipeline|].
  unfold Cdap.stop_pipeline, Cdap.get_last_executed_workflow_id,
    Cdap.get_workflow_executions.
  unfold Cdap.get_workflow at 1. unfold Cdap.get_programs at 1.
  rewrite !bind_assoc.
  match goal with
  | |- context [bind (get_pipeline_info p) ?k s] => set (K := k)
  end.
  unfold bind at 1. rewrite get_pipeline_info_sent.
  set (q := pipeline_info_request py_repr (self s) p).
  destruct (server (trace s) q) as [r|e].
  - assert (HK : framed (K r)).
    { unfold K. framed_solve. }
    destruct (HK (sent s q)) as [_ [t [Ht _]]]. exists t.
    rewrite Ht. cbn [sent trace]. rewrite <- app_assoc. reflexivity.
  - exists []. reflexivity.
Qed.

(** *** stop_all_pipelines *)

Lemma stop_loop_attempts (pipelines : list value) (c : Cdap.t) :
  forall s1, self s1 = c ->
  exists s2,
    for_each pipelines (fun pipeline =>
      try_except (bind (stop_pipeline pipeline) (fun _ => ret tt))
        (fun e => logger_exception ("Cannot stop pipeline " ++ str pipeline) e)) s1
    = (Ok tt, s2) /\
    stop_attempts server py_repr str_upper pipelines s1 s2 /\
    exists segments,
      trace s2 = (trace s1 ++ List.concat segments)%list /\
      Forall2 (fun p seg => exists rest, seg = pipeline_info_request py_repr c p :: rest)
              pipelines segments.
Proof.
  induction pipelines as [|p ps IH]; intros s1 Hc.
  - exists s1. split; [reflexivity|]. split; [constructor|].
    exists []. cbn. rewrite app_nil_r. split; [reflexivity|constructor].
  - destruct (stop_pipeline_opens_with_probe p s1) as [Hself [rest Hrest]].
    cbn [for_each]. unfold bind at 1, try_except, bind at 1.
    destruct (stop_pipeline p s1) as [[r|e] sa] eqn:E; cbn [snd] in *.
    + destruct (IH sa) as (s2 & Hrun & Hatt & segs & Htr & Hsegs); [congruence|].
      exists s2. cbn [ret]. split; [exact Hrun|]. split; [econstructor 2; eassumption|].
      exists ((pipeline_info_request py_repr c p :: rest) :: segs).
      split.
      * rewrite Htr, Hrest, Hc. cbn [List.concat]. rewrite <- !app_assoc. reflexivity.
      * constructor; [exists rest; reflexivity|exact Hsegs].
    + unfold logger_exception, log.
      fold (cannot_stop py_repr p e).
      change {| self := self sa; trace := trace sa;
                logs := (logs sa ++ [cannot_stop py_repr p e])%list |}
        with (logged sa (cannot_stop py_repr p e)).
      destruct (IH (logged sa (cannot_stop py_repr p e)))
        as (s2 & Hrun & Hatt & segs & Htr & Hsegs); [cbn; congruence|].
      exists s2. split; [exact Hrun|]. split; [econstructor 3; eassumption|].
      exists ((pipeline_info_request py_repr c p :: rest) :: segs).
      split.
      * rewrite Htr. cbn [logged trace]. rewrite Hrest, Hc. cbn [List.concat].
        rewrite <- !app_assoc. reflexivity.
      * constructor; [exists rest; reflexivity|exact Hsegs].
Qed.

(** C6. Once the pipelines are listed, [stop_all_pipelines] returns
    normally whatever the single stops do: every listed pipeline gets its
    stop attempt, in order, a raised exception is logged and the walk goes
    on.  In the trace, each pipeline has its own run of requests, opening
    with the GET of that pipeline's info. *)
Theorem stop_all_pipelines_tolerates_failures (s s1 : State) (pipelines : list value) :
  get_all_pipelines VNone VNone s = (Ok pipelines, s1) ->
  exists s2,
    stop_all_pipelines s = (Ok tt, s2) /\
    stop_attempts server py_repr str_upper pipelines s1 s2 /\
    exists segments,
      trace s2 = (trace s1 ++ List.concat segments)%list /\
      Forall2 (fun p seg =>
                 exists rest, seg = pipeline_info_request py_repr (self s) p :: rest)
              pipelines segments.
Proof.
  intros Hlist.
  assert (Hself : self s1 = self s).
  { pose proof (framed_get_all_pipelines VNone VNone s) as [H _].
    rewrite Hlist in H. exact H. }
  destruct (stop_loop_attempts pipelines (self s) s1 Hself) as (s2 & Hrun & Hrest).
  exists s2. split; [|exact Hrest].
  unfold Cdap.stop_all_pipelines. rewrite (bind_ok _ _ _ _ _ Hlist). exact Hrun.
Qed.

(** *** Construction and the token *)

Local Abbreviation init := (Cdap.init server py_repr).
Local Abbreviation run_op := (run server py_repr str_upper).

(** A kerberized construction sends the login POST and nothing else,
    whether or not the login succeeds. *)
Lemma init_kerberized_trace
      (node_ip rest_port ui_port username password namespace_id : value) (s0 : State) :
  trace (snd (init node_ip rest_port ui_port username password (VBool true) namespace_id s0))
  = (trace s0 ++ [login_request py_repr node_ip ui_port username password])%list.
Proof.
  unfold Cdap.init, Cdap.get_access_token, bind, set_self, get_self, lift, ret,
    ApiRequest_execute_request, login_request.
  cbn [is_True self trace logs Cdap.node_ip Cdap.ui_port Cdap.verify Cdap.ui_base_url].
  rewrite !append_assoc.
  destruct (server _ _) as [r|e]; [|reflexivity].
  destruct (Response_json r) as [j|e]; [|reflexivity].
  destruct (getitem j "access_token"); reflexivity.
Qed.

(** What a successful kerberized construction leaves in [self]. *)
Lemma init_kerberized_self
      (node_ip rest_port ui_port username password namespace_id : value) (s0 s : State) :
  init node_ip rest_port ui_port username password (VBool true) namespace_id s0 = (Ok tt, s) ->
  exists r j,
    server (trace s0) (login_request py_repr node_ip ui_port username password) = Ok r /\
    body r = Some j /\
    getitem j "access_token" = Ok (access_token (self s)) /\
    kerberized (self s) = VBool true /\
    verify (self s) = false /\
    ui_base_url (self s) = "https://" ++ str node_ip ++ ":" ++ str ui_port /\
    rest_base_url (self s) = "https://" ++ str node_ip ++ ":" ++ str rest_port /\
    rest_url (self s) =
      "http://" ++ str node_ip ++ ":" ++ str rest_port ++ "/v3/namespaces/" ++ str namespace_id.
Proof.
  unfold Cdap.init, Cdap.get_access_token, bind, set_self, get_self, lift, ret,
    ApiRequest_execute_request, login_request.
  cbn [is_True self trace logs Cdap.node_ip Cdap.ui_port Cdap.rest_port Cdap.verify Cdap.ui_base_url].
  rewrite !append_assoc.
  destruct (server _ _) as [r|e] eqn:Er; [|discriminate].
  unfold Response_json. destruct (body r) as [j|] eqn:Ej; [|discriminate].
  destruct (getitem j "access_token") as [tok|] eqn:Et; [|discriminate].
  intros H. injection H as <-. exists r, j. cbn.
  rewrite ?append_assoc. repeat split; assumption.
Qed.

(** Without [kerberized=True] no request is sent and the URLs stay on
    HTTP. *)
Lemma init_plain
      (node_ip rest_port ui_port username password kerberized namespace_id : value)
      (s0 : State) :
  is_True kerberized = false ->
  exists s,
    init node_ip rest_port ui_port username password kerberized namespace_id s0 = (Ok tt, s) /\
    trace s = trace s0 /\
    access_token (self s) = VNone /\
    Cdap.kerberized (self s) = kerberized /\
    verify (self s) = true /\
    rest_base_url (self s) = "http://" ++ str node_ip ++ ":" ++ str rest_port /\
    rest_url (self s) =
      "http://" ++ str node_ip ++ ":" ++ str rest_port ++ "/v3/namespaces/" ++ str namespace_id.
Proof.
  intros Hk. unfold Cdap.init, bind, set_self, get_self, ret. rewrite Hk.
  eexists. split; [reflexivity|]. cbn. rewrite ?append_assoc. repeat split.
Qed.

Lemma framed_operation (op : operation) :
  is_login op = false -> forall s,
    self (run_op op s) = self s /\
    exists t, trace (run_op op s) = (trace s ++ t)%list /\
              (is_True (kerberized (self s)) = true -> Forall (carries (self s)) t).
Proof.
  intros Hop.
  assert (H : forall A (m : M A), framed m -> forall s,
               self (snd (m s)) = self s /\
               exists t, trace (snd (m s)) = (trace s ++ t)%list /\
                         (is_True (kerberized (self s)) = true ->
                          Forall (carries (self s)) t)) by (intros A m Hm; exact Hm).
  destruct op; try discriminate Hop; cbn [run]; apply H;
    unfold Cdap.apps, Cdap.get_all_pipelines, Cdap.create_pipeline,
      Cdap.start_pipeline, Cdap.get_workflow_execution_by_id,
      Cdap.get_last_executed_workflow_status, Cdap.get_workflow_execution_status_by_id,
      Cdap._update_status, Cdap.query_dataset, Cdap.get_query_status,
      Cdap.download_query_results, Cdap.view_query_result, Cdap.schema,
      Cdap.is_streaming_pipeline, Cdap.stop_all_pipelines, Cdap.delete_pipeline,
      Cdap.delete_all_pipelines;
    framed_solve.
Qed.

(** No method assigns [access_token]: whatever is called, [get_access_token]
    included, the token of the instance is the one it had. *)
Lemma operations_keep_token (op : operation) (s : State) :
  access_token (self (run_op op s)) = access_token (self s).
Proof.
  destruct (is_login op) eqn:Hop.
  - destruct op; try discriminate Hop. cbn [run].
    unfold Cdap.get_access_token, bind, set_self, get_self, lift,
      ApiRequest_execute_request.
    destruct (server _ _) as [r|e]; [|reflexivity].
    destruct (Response_json r) as [j|e]; [|reflexivity].
    destruct (getitem j "access_token"); reflexivity.
  - destruct (framed_operation op Hop s) as [-> _]. reflexivity.
Qed.

(** On a kerberized instance every request a method sends through
    [execute_request] carries the token. *)
Lemma operations_carry_token (op : operation) (s : State) :
  is_login op = false ->
  is_True (kerberized (self s)) = true ->
  exists t, trace (run_op op s) = (trace s ++ t)%list /\ Forall (carries (self s)) t.
Proof.
  intros Hop Hk. destruct (framed_operation op Hop s) as [_ [t [Ht Hc]]].
  exists t. split; [exact Ht|exact (Hc Hk)].
Qed.

(** *** The query operations *)

Local Abbreviation query_dataset := (Cdap.query_dataset server).
Local Abbreviation get_query_status := (Cdap.get_query_status server py_repr).
Local Abbreviation download_query_results := (Cdap.download_query_results server py_repr).
Local Abbreviation view_query_result := (Cdap.view_query_result server py_repr).
Local Abbreviation schema := (Cdap.schema server py_repr).

(** C8, as the code has it.  On a constructed client the four operations
    keyed by a query handle send their request under the API root
    [<scheme>://<host>:<rest port>/v3/data/explore/queries/<handle>/...],
    which does not involve the namespace; [query_dataset] posts to
    [<namespaced root>/data/explore/queries], under
    [/v3/namespaces/<namespace id>]. *)
Theorem query_operation_urls
        (node_ip rest_port ui_port username password kerberized namespace_id : value)
        (s0 s : State) :
  init node_ip rest_port ui_port username password kerberized namespace_id s0 = (Ok tt, s) ->
  let api_root :=
    (if is_True kerberized then "https://" else "http://")
      ++ str node_ip ++ ":" ++ str rest_port in
  rest_base_url (self s) = api_root /\
  (exists scheme,
      rest_url (self s) =
        scheme ++ str node_ip ++ ":" ++ str rest_port
          ++ "/v3/namespaces/" ++ str namespace_id) /\
  forall (s' : State) (arg : value),
    self s' = self s ->
    (exists req,
        query_dataset arg s' = (server (trace s') req, sent s' req) /\
        request_type req = POST /\
        url req = rest_url (self s) ++ "/data/explore/queries") /\
    (exists req,
        get_query_status arg s' = (server (trace s') req, sent s' req) /\
        request_type req = GET /\
        url req = api_root ++ "/v3/data/explore/queries/" ++ str arg ++ "/status") /\
    (exists req,
        download_query_results arg s' = (server (trace s') req, sent s' req) /\
        request_type req = POST /\
        url req = api_root ++ "/v3/data/explore/queries/" ++ str arg ++ "/download") /\
    (exists req,
        view_query_result arg s' = (server (trace s') req, sent s' req) /\
        request_type req = POST /\
        url req = api_root ++ "/v3/data/explore/queries/" ++ str arg ++ "/next") /\
    (exists req,
        schema arg s' = (server (trace s') req, sent s' req) /\
        request_type req = GET /\
        url req = api_root ++ "/v3/data/explore/queries/" ++ str arg ++ "/schema").
Proof.
  intros Hinit api_root.
  assert (Hself : rest_base_url (self s) = api_root /\
                  rest_url (self s) =
                    "http://" ++ str node_ip ++ ":" ++ str rest_port
                      ++ "/v3/namespaces/" ++ str namespace_id).
  { unfold api_root. destruct (is_True kerberized) eqn:Hk.
    - destruct kerberized as [|[|]| | | |]; try discriminate Hk.
      destruct (init_kerberized_self _ _ _ _ _ _ _ _ Hinit)
        as (r & j & _ & _ & _ & _ & _ & _ & Hb & Hu).
      split; assumption.
    - destruct (init_plain node_ip rest_port ui_port username password _ namespace_id s0 Hk)
        as (s' & Hs' & _ & _ & _ & _ & Hb & Hu).
      rewrite Hinit in Hs'. injection Hs' as <-. split; assumption. }
  destruct Hself as [Hbase Hroot].
  split; [exact Hbase|]. split; [exists "http://"; exact Hroot|].
  intros s' arg Hs'.
  assert (Hreq : forall spec, request_type (dispatched (self s') spec) = request_type spec /\
                              url (dispatched (self s') spec) = url spec).
  { intros spec. unfold dispatched.
    destruct (is_True (Cdap.kerberized (self s'))); split; reflexivity. }
  repeat split;
    (eexists; split;
     [ apply execute_request_sent
     | split; [apply Hreq|];
       rewrite (proj2 (Hreq _)); cbn [url]; rewrite Hs', <- ?Hbase, ?append_assoc;
       reflexivity ]).
Qed.

End ClientFacts.

(** ** The client at work on the demo platform *)

Section Runs.

Import Cdap.

Local Abbreviation cdap_init := (Cdap.init Demo.server Demo.repr).

(** C8, a query submission under the namespaced root: on a plain client
    for namespace "default", [query_dataset] posts to a URL that is not
    under [<base>/v3/data/explore/queries] and that names the namespace. *)
Lemma query_dataset_url_is_namespaced :
  exists req,
    last_request (snd (Cdap.query_dataset Demo.server (VStr "SELECT 1") Demo.client))
      = Some req /\
    url req = "http://h:11015/v3/namespaces/default/data/explore/queries" /\
    under_query_root (rest_base_url (self Demo.client)) (url req) = false /\
    mentions "default" (url req) = true /\
    ~ un_namespaced (self Demo.client) "default" req.
Proof.
  eexists. split; [reflexivity|]. split; [reflexivity|].
  split; [reflexivity|]. split; [reflexivity|].
  intros [H _]. vm_compute in H. discriminate H.
Qed.

(** C9, at a kerberized client: the login succeeds, the token is stored,
    [rest_base_url] is on HTTPS, yet the namespaced root computed before
    the login is still on HTTP, and so is the URL of the next [apps()]
    call, which carries the token. *)
Theorem kerberized_client_namespaced_root_stays_http :
  cdap_init (VStr "h") (VInt 11015) (VInt 11011) (VStr "admin") (VStr "secret")
            (VBool true) (VStr "default") Demo.fresh
    = (Ok tt, Demo.kerberized_client) /\
  map url (trace Demo.kerberized_client) = ["https://h:11011/login"] /\
  access_token (self Demo.kerberized_client) = VStr "tok" /\
  verify (self Demo.kerberized_client) = false /\
  ui_base_url (self Demo.kerberized_client) = "https://h:11011" /\
  rest_base_url (self Demo.kerberized_client) = "https://h:11015" /\
  rest_url (self Demo.kerberized_client) = "http://h:11015/v3/namespaces/default" /\
  map (fun q => (url q, bearer_token q))
      (trace (snd (Cdap.apps Demo.server VNone VNone Demo.kerberized_client)))
    = [("https://h:11011/login", None);
       ("http://h:11015/v3/namespaces/default/apps", Some (VStr "tok"))].
Proof. repeat split. Qed.

(** The selection on lists with a workflow between two Spark programs,
    with two Spark programs and no workflow, with neither kind, and with a
    workflow whose type is spelled with the fl ligature. *)
Lemma get_cdap_workflow_selection_witness :
  Workflows.get_cdap_workflow Demo.upper Demo.programs_p
    = Ok (descriptor "Workflow" "DataPipelineWorkflow" "p") /\
  Workflows.get_cdap_workflow Demo.upper
    (VList [descriptor "Spark" "first" "p"; descriptor "MapReduce" "mr" "p";
            descriptor "sPaRk" "second" "p"; descriptor "Service" "svc" "p"])
    = Ok (descriptor "sPaRk" "second" "p") /\
  Workflows.get_cdap_workflow Demo.upper (VList [descriptor "MapReduce" "mr" "p"]) = Ok VNone /\
  Workflows.get_cdap_workflow Demo.upper (VList []) = Ok VNone /\
  Workflows.get_cdap_workflow Demo.upper
    (VList [descriptor "Spark" "first" "p"; descriptor "workﬂow" "ligature" "p"])
    = Ok (descriptor "workﬂow" "ligature" "p").
Proof.
  assert (Hd : forall ty nm app, is_descriptor Demo.upper (descriptor ty nm app))
    by (intros ty nm app; unfold is_descriptor; cbn; discriminate).
  split; [|split; [|split; [|split]]].
  - apply (proj1 (get_cdap_workflow_selection Demo.upper _)
             [descriptor "Spark" "phase-1" "p"]
             (descriptor "Workflow" "DataPipelineWorkflow" "p")
             [descriptor "spark" "phase-2" "p"]).
    + reflexivity.
    + repeat constructor; apply Hd.
    + repeat constructor. unfold is_workflow. cbn. discriminate.
    + reflexivity.
  - apply (proj1 (proj2 (get_cdap_workflow_selection Demo.upper _))
             [descriptor "Spark" "first" "p"; descriptor "MapReduce" "mr" "p"]
             (descriptor "sPaRk" "second" "p")
             [descriptor "Service" "svc" "p"]).
    + reflexivity.
    + repeat constructor; apply Hd.
    + repeat constructor; unfold is_workflow; cbn; discriminate.
    + reflexivity.
    + repeat constructor; unfold is_spark; cbn; discriminate.
  - apply (proj2 (proj2 (get_cdap_workflow_selection Demo.upper _))).
    + repeat constructor; apply Hd.
    + repeat constructor; unfold is_workflow; cbn; discriminate.
    + repeat constructor; unfold is_spark; cbn; discriminate.
  - apply (proj2 (proj2 (get_cdap_workflow_selection Demo.upper []))); constructor.
  - apply (proj1 (get_cdap_workflow_selection Demo.upper _)
             [descriptor "Spark" "first" "p"]
             (descriptor "workﬂow" "ligature" "p")
             []).
    + reflexivity.
    + repeat constructor; apply Hd.
    + repeat constructor. unfold is_workflow. cbn. discriminate.
    + reflexivity.
Defined.

(** Mixed case is accepted, as are spellings whose upper case is that of
    a member; a type outside the enumeration raises. *)
Lemma get_api_workflow_name_cases_witness :
  Workflows.get_api_workflow_name Demo.upper (VStr "wOrKfLoW") = Ok "workflows" /\
  Workflows.get_api_workflow_name Demo.upper (VStr "Spark") = Ok "spark" /\
  Workflows.get_api_workflow_name Demo.upper (VStr "MapReduce") = Raise (KeyError "MAPREDUCE") /\
  Workflows.get_api_workflow_name Demo.upper (VStr "ſpark") = Ok "spark" /\
  Workflows.get_api_workflow_name Demo.upper (VStr "workﬂow") = Ok "workflows".
Proof.
  split; [|split; [|split; [|split]]].
  - apply (proj1 (get_api_workflow_name_cases Demo.upper "wOrKfLoW")). reflexivity.
  - apply (proj1 (proj2 (get_api_workflow_name_cases Demo.upper "Spark"))). reflexivity.
  - apply (proj2 (proj2 (get_api_workflow_name_cases Demo.upper "MapReduce"))); cbn; discriminate.
  - apply (proj1 (proj2 (get_api_workflow_name_cases Demo.upper "ſpark"))). reflexivity.
  - apply (proj1 (get_api_workflow_name_cases Demo.upper "workﬂow")). reflexivity.
Defined.

(** Pipeline "p" has the runs started at 10, 30, 30; pipeline "q" has
    none. *)
Lemma get_last_executed_workflow_id_selection_witness :
  fst (Cdap.get_last_executed_workflow_id Demo.server Demo.repr Demo.upper (VStr "p") Demo.client)
    = Ok "c" /\
  fst (Cdap.get_last_executed_workflow_id Demo.server Demo.repr Demo.upper (VStr "q") Demo.client)
    = Ok "".
Proof.
  split.
  - assert (Hfetch :
      Cdap.get_workflow_executions Demo.server Demo.repr Demo.upper (VStr "p") Demo.client
      = (Ok (mkResponse 200 (Some Demo.runs_p)),
         snd (Cdap.get_workflow_executions Demo.server Demo.repr Demo.upper (VStr "p") Demo.client)))
      by reflexivity.
    rewrite (proj2 (proj2 (get_last_executed_workflow_id_selection
                             Demo.server Demo.repr Demo.upper _ _ _ _ _ Hfetch eq_refl))
               "COMPLETED" "FAILED" "RUNNING" eq_refl).
    reflexivity.
  - assert (Hfetch :
      Cdap.get_workflow_executions Demo.server Demo.repr Demo.upper (VStr "q") Demo.client
      = (Ok (mkResponse 200 (Some (VList []))),
         snd (Cdap.get_workflow_executions Demo.server Demo.repr Demo.upper (VStr "q") Demo.client)))
      by reflexivity.
    rewrite (proj1 (get_last_executed_workflow_id_selection
                      Demo.server Demo.repr Demo.upper _ _ _ _ _ Hfetch eq_refl) eq_refl).
    reflexivity.
Defined.

(** "q" never ran; the last run of "p" is running. *)
Lemma get_last_executed_workflow_status_cases_witness :
  Cdap.get_last_executed_workflow_status Demo.server Demo.repr Demo.upper (VStr "q") Demo.client
    = (Ok "NOT_EXECUTED",
       snd (Cdap.get_last_executed_workflow_id Demo.server Demo.repr Demo.upper (VStr "q") Demo.client)) /\
  fst (Cdap.get_last_executed_workflow_status Demo.server Demo.repr Demo.upper (VStr "p") Demo.client)
    = Ok "RUNNING".
Proof.
  split.
  - apply (proj1 (get_last_executed_workflow_status_cases Demo.server Demo.repr Demo.upper _ _ _)).
    reflexivity.
  - pose (s1 := snd (Cdap.get_last_executed_workflow_id
                       Demo.server Demo.repr Demo.upper (VStr "p") Demo.client)).
    pose (s2 := snd (Cdap.get_workflow_execution_by_id
                       Demo.server Demo.repr Demo.upper (VStr "p") (VStr "c") s1)).
    assert (Hne : "c" <> "") by discriminate.
    assert (Hid : Cdap.get_last_executed_workflow_id
                    Demo.server Demo.repr Demo.upper (VStr "p") Demo.client = (Ok "c", s1))
      by reflexivity.
    assert (Hrun : Cdap.get_workflow_execution_by_id
                     Demo.server Demo.repr Demo.upper (VStr "p") (VStr "c") s1
                   = (Ok (mkResponse 200 (Some (execution 30 "c" "RUNNING"))), s2))
      by reflexivity.
    rewrite (proj1 (proj2 (get_last_executed_workflow_status_cases
                             Demo.server Demo.repr Demo.upper (VStr "p") Demo.client s1)
                      "c" _ s2 _ (VStr "RUNNING") Hne Hid Hrun eq_refl eq_refl)).
    reflexivity.
Defined.

(** Pipeline "p" exists: only the probe goes out. *)
Lemma create_pipeline_existing_witness :
  fst (Cdap.create_pipeline Demo.server Demo.repr (VStr "p") (VBool false) (VDict [])
                            Demo.client) = Ok NotCreated /\
  map (fun q => (request_type q, url q))
      (trace (snd (Cdap.create_pipeline Demo.server Demo.repr (VStr "p") (VBool false)
                                        (VDict []) Demo.client)))
    = [(GET, "http://h:11015/v3/namespaces/default/apps/p")].
Proof.
  assert (Hprobe :
    Cdap.get_pipeline_info Demo.server Demo.repr (VStr "p") Demo.client
    = (Ok (mkResponse 200 (Some (VDict [("programs", Demo.programs_p);
                                        ("plugins", VList [])]))),
       snd (Cdap.get_pipeline_info Demo.server Demo.repr (VStr "p") Demo.client)))
    by reflexivity.
  destruct (create_pipeline_existing Demo.server Demo.repr (VStr "p") (VDict [])
              Demo.client _ _ Hprobe eq_refl) as (s' & Hrun & _ & Htr & _).
  rewrite Hrun. cbn [fst snd]. rewrite Htr. split; reflexivity.
Defined.

(** [None] and [0] are falsy but are not [False]: only the PUT goes out. *)
Lemma create_pipeline_without_probe_witness :
  map (fun q => (request_type q, url q))
      (trace (snd (Cdap.create_pipeline Demo.server Demo.repr (VStr "p") VNone (VDict [])
                                        Demo.client)))
    = [(PUT, "http://h:11015/v3/namespaces/default/apps/p")] /\
  map (fun q => (request_type q, url q))
      (trace (snd (Cdap.create_pipeline Demo.server Demo.repr (VStr "p") (VInt 0) (VDict [])
                                        Demo.client)))
    = [(PUT, "http://h:11015/v3/namespaces/default/apps/p")].
Proof.
  split.
  - rewrite (proj1 (create_pipeline_without_probe Demo.server Demo.repr (VStr "p") VNone
                      (VDict []) Demo.client ltac:(discriminate))).
    reflexivity.
  - rewrite (proj1 (create_pipeline_without_probe Demo.server Demo.repr (VStr "p") (VInt 0)
                      (VDict []) Demo.client ltac:(discriminate))).
    reflexivity.
Defined.

(** Stopping "q", which never ran. *)
Lemma stop_pipeline_never_executed_witness :
  last_request (snd (Cdap.stop_pipeline Demo.server Demo.repr Demo.upper (VStr "q") Demo.client))
  = Some (mkSpec POST "http://h:11015/v3/namespaces/default/apps/q/spark/SparkJob/runs//stop"
                 None None true None).
Proof.
  pose (s1 := snd (Cdap.get_last_executed_workflow_id
                     Demo.server Demo.repr Demo.upper (VStr "q") Demo.client)).
  pose (s2 := snd (Cdap.get_workflow Demo.server Demo.repr Demo.upper (VStr "q") s1)).
  assert (Hid : Cdap.get_last_executed_workflow_id
                  Demo.server Demo.repr Demo.upper (VStr "q") Demo.client = (Ok "", s1))
    by reflexivity.
  assert (Hwf : Cdap.get_workflow Demo.server Demo.repr Demo.upper (VStr "q") s1
                = (Ok (descriptor "spark" "SparkJob" "q"), s2))
    by reflexivity.
  rewrite (proj1 (stop_pipeline_never_executed Demo.server Demo.repr Demo.upper
                    (VStr "q") _ (VStr "SparkJob") (VStr "spark") "spark"
                    Demo.client s1 s2 Hid Hwf eq_refl eq_refl eq_refl)).
  reflexivity.
Defined.

(** "ghost" cannot be stopped; the walk ends normally with one record in
    the log. *)
Lemma stop_all_pipelines_tolerates_failures_witness :
  fst (Cdap.stop_all_pipelines Demo.server Demo.repr Demo.upper Demo.client) = Ok tt /\
  logs (snd (Cdap.stop_all_pipelines Demo.server Demo.repr Demo.upper Demo.client))
    = [mkLog ERROR "Cannot stop pipeline ghost" (Some ValueError)].
Proof.
  assert (Hlist :
    Cdap.get_all_pipelines Demo.server VNone VNone Demo.client
    = (Ok [VStr "p"; VStr "ghost"; VStr "q"],
       snd (Cdap.get_all_pipelines Demo.server VNone VNone Demo.client)))
    by reflexivity.
  destruct (stop_all_pipelines_tolerates_failures Demo.server Demo.repr Demo.upper
              Demo.client _ _ Hlist) as (s2 & Hrun & _).
  split.
  - rewrite Hrun. reflexivity.
  - reflexivity.
Defined.

(** The status URL of a query on the plain client. *)
Lemma query_operation_urls_witness :
  rest_base_url (self Demo.client) = "http://h:11015" /\
  (exists req,
      Cdap.get_query_status Demo.server Demo.repr (VStr "handle-1") Demo.client
        = (Demo.server (trace Demo.client) req, sent Demo.client req) /\
      request_type req = GET /\
      url req = "http://h:11015/v3/data/explore/queries/handle-1/status").
Proof.
  assert (Hinit :
    cdap_init (VStr "h") (VInt 11015) (VInt 11011) (VStr "admin") (VStr "secret")
              VNone (VStr "default") Demo.fresh = (Ok tt, Demo.client))
    by reflexivity.
  destruct (query_operation_urls Demo.server Demo.repr _ _ _ _ _ _ _ _ _ Hinit)
    as (Hbase & _ & Hq).
  split; [exact Hbase|].
  destruct (Hq Demo.client (VStr "handle-1") eq_refl) as (_ & Hstatus & _).
  exact Hstatus.
Defined.

End Runs.

(** ** More on the workflow resolver *)

Section MoreWorkflowFacts.

Import Workflows.

Variable str_upper : string -> string.

(** Whatever the loop returns is the value it started with or an entry it
    recognised as a workflow or a Spark program. *)
Lemma loop_result (l : list Py.value) :
  forall acc p,
    get_cdap_workflow_loop str_upper acc l = Ok p ->
    p = acc \/ (In p l /\ (is_workflow str_upper p \/ is_spark str_upper p)).
Proof.
  induction l as [|q l IH]; intros acc p H.
  - cbn in H. injection H as <-. left. reflexivity.
  - cbn [get_cdap_workflow_loop] in H.
    destruct (getitem q "type") as [ty|] eqn:Ety; [|discriminate].
    cbn [rbind] in H.
    destruct ty as [| | |t| |]; try discriminate.
    cbn [upper rbind name] in H.
    assert (Hq : program_type str_upper q = Some (str_upper t))
      by (unfold program_type; rewrite Ety; reflexivity).
    destruct (str_upper t =? "WORKFLOW") eqn:Ew.
    + injection H as <-. apply String.eqb_eq in Ew. right. split; [left; reflexivity|].
      left. unfold is_workflow. rewrite Hq, Ew. reflexivity.
    + destruct (str_upper t =? "SPARK") eqn:Es.
      * apply IH in H. destruct H as [->|[Hin Hk]].
        -- apply String.eqb_eq in Es. right. split; [left; reflexivity|].
           right. unfold is_spark. rewrite Hq, Es. reflexivity.
        -- right. split; [right; exact Hin|exact Hk].
      * apply IH in H. destruct H as [->|[Hin Hk]].
        -- left. reflexivity.
        -- right. split; [right; exact Hin|exact Hk].
Qed.

Lemma api_name_of_upper (t : string) :
  (str_upper t = "WORKFLOW" -> get_api_workflow_name str_upper (VStr t) = Ok "workflows") /\
  (str_upper t = "SPARK" -> get_api_workflow_name str_upper (VStr t) = Ok "spark").
Proof.
  unfold get_api_workflow_name, by_name; cbn [upper rbind name].
  split; intros ->; reflexivity.
Qed.

(** X1. Whenever [get_cdap_workflow] returns for a list, the result is
    [None] or an entry of the list whose type [get_api_workflow_name] maps
    to a path segment: the lookup cannot fail on a selected program. *)
Theorem selected_workflow_has_api_name (l : list Py.value) (p : Py.value) :
  get_cdap_workflow str_upper (VList l) = Ok p ->
  p = VNone \/
  (In p l /\ exists ty segment,
      getitem p "type" = Ok ty /\
      get_api_workflow_name str_upper ty = Ok segment /\
      (segment = "workflows" \/ segment = "spark")).
Proof.
  unfold get_cdap_workflow. cbn [iter rbind]. intros H.
  apply loop_result in H. destruct H as [->|[Hin Hk]]; [left; reflexivity|].
  right. split; [exact Hin|].
  assert (Ht : exists t, getitem p "type" = Ok (VStr t) /\
                         (str_upper t = "WORKFLOW" \/ str_upper t = "SPARK")).
  { unfold is_workflow, is_spark, program_type in Hk.
    destruct (getitem p "type") as [[| | |t| |]|]; try (destruct Hk; discriminate).
    exists t. split; [reflexivity|].
    destruct Hk as [Hk|Hk]; injection Hk as Hk; [left|right]; exact Hk. }
  destruct Ht as (t & Ht & [Hu|Hu]).
  - exists (VStr t), "workflows". split; [exact Ht|]. split; [|left; reflexivity].
    apply (proj1 (api_name_of_upper t)). exact Hu.
  - exists (VStr t), "spark". split; [exact Ht|]. split; [|right; reflexivity].
    apply (proj2 (api_name_of_upper t)). exact Hu.
Qed.

(** X2. An entry met before any workflow must be a dict with a string
    under "type": a missing key raises [KeyError], a type that is not a
    string raises [AttributeError], an entry that is not a dict raises
    [TypeError], whatever follows in the list. *)
Theorem get_cdap_workflow_malformed_entry (pre post : list Py.value) (p : Py.value) :
  Forall (is_descriptor str_upper) pre ->
  Forall (fun q => ~ is_workflow str_upper q) pre ->
  (forall d, p = VDict d -> assoc "type" d = None ->
     get_cdap_workflow str_upper (VList (pre ++ p :: post)) = Raise (KeyError "type")) /\
  (forall v, getitem p "type" = Ok v -> (forall t, v <> VStr t) ->
     get_cdap_workflow str_upper (VList (pre ++ p :: post)) = Raise AttributeError) /\
  ((forall d, p <> VDict d) ->
     get_cdap_workflow str_upper (VList (pre ++ p :: post)) = Raise TypeError).
Proof.
  intros Hd Hw. unfold get_cdap_workflow. cbn [iter rbind].
  destruct (loop_skips_prefix str_upper _ Hd Hw VNone (p :: post)) as [acc ->].
  cbn [get_cdap_workflow_loop]. split; [|split].
  - intros d -> Hnone. cbn [getitem]. rewrite Hnone. reflexivity.
  - intros v Hv Hns. rewrite Hv. cbn [rbind].
    destruct v as [| | |t| |]; try reflexivity. exfalso. apply (Hns t). reflexivity.
  - intros Hnd. destruct p as [| | | | |d]; try reflexivity.
    exfalso. apply (Hnd d). reflexivity.
Qed.

End MoreWorkflowFacts.

(** ** More on the client *)

Section MoreClientFacts.

Import Cdap.

Variable server : list ApiRequestSpecification -> ApiRequestSpecification -> result Response.
Variable py_repr : value -> string.
Variable str_upper : string -> string.

Local Abbreviation str := (Cdap.str py_repr).
Local Abbreviation last_executed_of := (Cdap.last_executed_of py_repr).

(** *** The last run, on lists that are not all well formed *)

Lemma nth_error_Forall2 {A B} (P : A -> B -> Prop) (l : list A) (l' : list B) :
  Forall2 P l l' ->
  forall i,
    (forall b, nth_error l' i = Some b -> exists a, nth_error l i = Some a /\ P a b) /\
    (forall a, nth_error l i = Some a -> exists b, nth_error l' i = Some b /\ P a b).
Proof.
  induction 1 as [|a0 b0 l l' H0 _ IH]; intros i.
  - split; intros x Hx; destruct i; discriminate.
  - destruct i as [|i]; cbn [nth_error].
    + split; intros x Hx; injection Hx as <-; eauto.
    + apply IH.
Qed.

(** X3. Only the "runid" of the selected run is read: with integer start
    times throughout, the call returns [str] of the "runid" of the latest
    run (greatest index among equals) or raises what reading that one key
    raises; the other runs need no "runid". *)
Theorem last_executed_reads_one_runid (execs : list value) (ts : list Z) :
  execs <> [] ->
  Forall2 (fun e t => getitem e "starting" = Ok (VInt t)) execs ts ->
  exists i e t,
    nth_error execs i = Some e /\
    nth_error ts i = Some t /\
    (forall j t', nth_error ts j = Some t' -> (t' < t)%Z \/ (t' = t /\ j <= i)) /\
    last_executed_of (VList execs) = (runid <-? getitem e "runid"; Ok (str runid)).
Proof.
  intros Hne Hts.
  assert (Hkne : keys_from 0 ts <> []).
  { destruct Hts; [congruence|]. cbn. congruence. }
  destruct (isort_head _ Hkne) as ([t i] & rest & Hsort & Hin & Hmax).
  apply keys_from_In in Hin. destruct Hin as [_ Hnth]. rewrite Nat.sub_0_r in Hnth.
  destruct (proj1 (nth_error_Forall2 _ _ _ Hts i) _ Hnth) as (e & Hei & _).
  exists i, e, t. repeat split; try assumption.
  - intros j t' Hj. specialize (Hmax (t', j)).
    unfold key_le in Hmax. cbn [fst snd] in Hmax. apply Hmax.
    apply keys_from_In. split; [lia|]. rewrite Nat.sub_0_r. exact Hj.
  - unfold Cdap.last_executed_of. cbn [len rbind iter].
    destruct execs as [|e0 execs']; [congruence|]. cbn [List.length Nat.eqb].
    unfold enumerate. rewrite (keys_of_executions _ _ Hts 0). cbn [rbind].
    rewrite sorted_reverse_int, Hsort. cbn [rbind map int_key snd fst getindex].
    rewrite Hei. reflexivity.
Qed.

Lemma mapR_stops {A B} (f : A -> result B) (pre post : list A) (x : A) (e : exn) :
  Forall (fun a => exists b, f a = Ok b) pre ->
  f x = Raise e ->
  mapR f (pre ++ x :: post)%list = Raise e.
Proof.
  intros Hpre Hx. induction Hpre as [|a pre (b & Hb) _ IH]; cbn [app mapR].
  - rewrite Hx. reflexivity.
  - rewrite Hb. cbn [rbind]. rewrite IH. reflexivity.
Qed.

Lemma enumerate_from_app (l l' : list value) :
  forall i,
    enumerate_from i (l ++ l')%list
    = (enumerate_from i l ++ enumerate_from (i + List.length l) l')%list.
Proof.
  induction l as [|x l IH]; intros i; cbn [app enumerate_from List.length].
  - rewrite Nat.add_0_r. reflexivity.
  - rewrite IH. replace (S i + List.length l) with (i + S (List.length l)) by lia.
    reflexivity.
Qed.

(** X4. A run record without "starting" makes the call raise
    [KeyError("starting")] wherever it stands in the list: every start time
    is read before any is compared. *)
Theorem last_executed_missing_starting
        (pre post : list value) (d : list (string * value)) :
  Forall (fun e => exists v, getitem e "starting" = Ok v) pre ->
  assoc "starting" d = None ->
  last_executed_of (VList (pre ++ VDict d :: post)) = Raise (KeyError "starting").
Proof.
  intros Hpre Hd. unfold Cdap.last_executed_of. cbn [len rbind iter].
  destruct (List.length (pre ++ VDict d :: post) =? 0)%nat eqn:El.
  - apply Nat.eqb_eq in El. rewrite length_app in El. cbn in El. lia.
  - unfold enumerate. rewrite enumerate_from_app. cbn [enumerate_from].
    rewrite mapR_stops with (e := KeyError "starting"); [reflexivity| |].
    + clear - Hpre. generalize 0. induction Hpre as [|a pre (v & Hv) _ IH]; intros i.
      * constructor.
      * cbn [enumerate_from]. constructor; [|apply IH].
        exists (v, i). cbn [snd fst]. rewrite Hv. reflexivity.
    + cbn [snd fst getitem]. rewrite Hd. reflexivity.
Qed.

Local Abbreviation execute_request := (Cdap.execute_request server).
Local Abbreviation apps := (Cdap.apps server).
Local Abbreviation get_all_pipelines := (Cdap.get_all_pipelines server).
Local Abbreviation get_pipeline_info := (Cdap.get_pipeline_info server py_repr).
Local Abbreviation get_workflow := (Cdap.get_workflow server py_repr str_upper).
Local Abbreviation get_workflow_executions := (Cdap.get_workflow_executions server py_repr str_upper).
Local Abbreviation get_workflow_execution_by_id :=
  (Cdap.get_workflow_execution_by_id server py_repr str_upper).
Local Abbreviation get_last_executed_workflow_id :=
  (Cdap.get_last_executed_workflow_id server py_repr str_upper).
Local Abbreviation get_last_executed_workflow_status :=
  (Cdap.get_last_executed_workflow_status server py_repr str_upper).
Local Abbreviation get_workflow_execution_status_by_id :=
  (Cdap.get_workflow_execution_status_by_id server py_repr str_upper).
Local Abbreviation create_pipeline := (Cdap.create_pipeline server py_repr).
Local Abbreviation start_pipeline := (Cdap.start_pipeline server py_repr str_upper).
Local Abbreviation stop_pipeline := (Cdap.stop_pipeline server py_repr str_upper).
Local Abbreviation delete_pipeline := (Cdap.delete_pipeline server py_repr).
Local Abbreviation delete_all_pipelines := (Cdap.delete_all_pipelines server py_repr).
Local Abbreviation is_streaming_pipeline := (Cdap.is_streaming_pipeline server py_repr).

(** *** is_streaming_pipeline *)

Lemma eqb_str (v : value) (x : string) : eqb v (VStr x) = true <-> v = VStr x.
Proof.
  destruct v as [|b|z|y|l|d]; cbn; try (split; [discriminate|congruence]).
  rewrite String.eqb_eq. split; congruence.
Qed.

Lemma is_streaming_loop_spec (plugins : list value) :
  Forall (fun q => exists v, getitem q "type" = Ok v) plugins ->
  exists b,
    is_streaming_loop plugins = Ok b /\
    (b = true <-> Exists (fun q => getitem q "type" = Ok (VStr "streamingsource")) plugins).
Proof.
  induction 1 as [|q plugins (v & Hv) _ (b & IHrun & IHiff)].
  - exists false. split; [reflexivity|]. split; [discriminate|]. intros H. inversion H.
  - cbn [is_streaming_loop]. rewrite Hv. cbn [rbind].
    destruct (eqb v (VStr "streamingsource")) eqn:E.
    + exists true. split; [reflexivity|]. split; [|reflexivity]. intros _.
      apply eqb_str in E. subst v. left. exact Hv.
    + exists b. split; [exact IHrun|]. rewrite IHiff. split.
      * intros H. right. exact H.
      * intros H. inversion H as [? ? Hq|? ? Hrest]; subst; [|exact Hrest].
        rewrite Hv in Hq. injection Hq as ->. cbn in E. discriminate.
Qed.

(** X5. With the pipeline's info fetched and every plugin entry carrying
    a "type", [is_streaming_pipeline] returns [True] exactly when some
    entry has the type "streamingsource" (so [False] for no plugins), and
    sends nothing beyond the one GET. *)
Theorem is_streaming_pipeline_iff
        (pipeline_name j : value) (plugins : list value) (s s1 : State) (r : Response) :
  get_pipeline_info pipeline_name s = (Ok r, s1) ->
  body r = Some j ->
  getitem j "plugins" = Ok (VList plugins) ->
  Forall (fun q => exists v, getitem q "type" = Ok v) plugins ->
  exists b,
    is_streaming_pipeline pipeline_name s = (Ok b, s1) /\
    (b = true <->
     Exists (fun q => getitem q "type" = Ok (VStr "streamingsource")) plugins).
Proof.
  intros Hinfo Hbody Hplugins Hwf.
  destruct (is_streaming_loop_spec _ Hwf) as (b & Hrun & Hiff).
  exists b. split; [|exact Hiff].
  unfold Cdap.is_streaming_pipeline. rewrite (bind_ok _ _ _ _ _ Hinfo).
  unfold bind, lift, Response_json. rewrite Hbody, Hplugins. cbn [iter]. rewrite Hrun.
  reflexivity.
Qed.

(** *** get_all_pipelines *)

Lemma mapR_all {A B} (f : A -> result B) (l : list A) (l' : list B) :
  Forall2 (fun a b => f a = Ok b) l l' -> mapR f l = Ok l'.
Proof.
  induction 1 as [|a b l l' H _ IH]; cbn [mapR]; [reflexivity|].
  rewrite H. cbn [rbind]. rewrite IH. reflexivity.
Qed.

Lemma apps_sent (artifact_name artifact_version : value) (s : State) :
  apps artifact_name artifact_version s =
    (server (trace s) (apps_request (self s) artifact_name artifact_version),
     sent s (apps_request (self s) artifact_name artifact_version)).
Proof. reflexivity. Qed.

(** X6. [get_all_pipelines] sends the one GET of [apps] and, on a JSON
    list answer, returns the "name" of every entry in the order of the
    answer; the first entry that has no "name" makes the whole call raise,
    and no partial list is returned. *)
Theorem get_all_pipelines_names
        (artifact_name artifact_version : value) (s : State) (r : Response)
        (items : list value) :
  server (trace s) (apps_request (self s) artifact_name artifact_version) = Ok r ->
  body r = Some (VList items) ->
  (forall names,
      Forall2 (fun item nm => getitem item "name" = Ok nm) items names ->
      get_all_pipelines artifact_name artifact_version s
      = (Ok names, sent s (apps_request (self s) artifact_name artifact_version))) /\
  (forall pre bad post e,
      items = (pre ++ bad :: post)%list ->
      Forall (fun item => exists nm, getitem item "name" = Ok nm) pre ->
      getitem bad "name" = Raise e ->
      get_all_pipelines artifact_name artifact_version s
      = (Raise e, sent s (apps_request (self s) artifact_name artifact_version))).
Proof.
  intros Hr Hbody.
  assert (Hrun : get_all_pipelines artifact_name artifact_version s
                 = (mapR (fun pipeline => getitem pipeline "name") items,
                    sent s (apps_request (self s) artifact_name artifact_version))).
  { unfold Cdap.get_all_pipelines. unfold bind at 1. rewrite apps_sent, Hr.
    unfold bind, lift, Response_json. rewrite Hbody. cbn [iter].
    destruct (mapR _ items); reflexivity. }
  rewrite Hrun. split.
  - intros names Hnames. rewrite (mapR_all _ _ _ Hnames). reflexivity.
  - intros pre bad post e -> Hpre Hbad.
    rewrite (mapR_stops _ _ _ _ _ Hpre Hbad). reflexivity.
Qed.

(** *** create_pipeline, once more *)

(** X7. With [overwrite_pipeline = False]: a probe answered with any
    status other than 200 is followed by the PUT, whose answer is the
    result; a probe that raises ends the call with that exception, and no
    PUT is sent. *)
Theorem create_pipeline_after_probe (pipeline_name input_json : value) (s : State) :
  let probe := pipeline_info_request py_repr (self s) pipeline_name in
  let put := deploy_request py_repr (self s) pipeline_name input_json in
  (forall r,
      server (trace s) probe = Ok r ->
      status_code r <> 200%Z ->
      create_pipeline pipeline_name (VBool false) input_json s
      = (match server (trace s ++ [probe]) put with
         | Ok r' => Ok (Deployed r')
         | Raise e => Raise e
         end,
         sent (sent s probe) put)) /\
  (forall e,
      server (trace s) probe = Raise e ->
      create_pipeline pipeline_name (VBool false) input_json s = (Raise e, sent s probe)).
Proof.
  intros probe put. split.
  - intros r Hr Hcode. unfold Cdap.create_pipeline. cbn [is_False].
    rewrite bind_assoc. unfold bind at 1.
    rewrite get_pipeline_info_sent. fold probe. rewrite Hr.
    unfold bind at 1. cbn [ret].
    apply Z.eqb_neq in Hcode. rewrite Hcode.
    unfold bind, ret, get_self. rewrite execute_request_sent.
    change (self (sent s probe)) with (self s).
    fold (deploy_request py_repr (self s) pipeline_name input_json). fold put.
    cbn [sent trace].
    destruct (server (trace s ++ [probe]) put); reflexivity.
  - intros e He. unfold Cdap.create_pipeline. cbn [is_False].
    rewrite bind_assoc. unfold bind at 1.
    rewrite get_pipeline_info_sent. fold probe. rewrite He. reflexivity.
Qed.

(** *** A pipeline without workflow or Spark program *)

(** X8. When the workflow of a pipeline resolves to [None], the methods
    that need it raise [TypeError] on reading its "name" (or "app") and
    send nothing after the GET of the pipeline's info. *)
Theorem unresolved_workflow_raises (pipeline_name : value) (s s1 : State) :
  get_workflow pipeline_name s = (Ok VNone, s1) ->
  start_pipeline pipeline_name s = (Raise TypeError, s1) /\
  get_workflow_executions pipeline_name s = (Raise TypeError, s1) /\
  (forall execution_id,
      get_workflow_execution_by_id pipeline_name execution_id s = (Raise TypeError, s1)) /\
  get_last_executed_workflow_id pipeline_name s = (Raise TypeError, s1) /\
  get_last_executed_workflow_status pipeline_name s = (Raise TypeError, s1) /\
  stop_pipeline pipeline_name s = (Raise TypeError, s1).
Proof.
  intros Hwf.
  assert (Hex : get_workflow_executions pipeline_name s = (Raise TypeError, s1)).
  { unfold Cdap.get_workflow_executions. rewrite (bind_ok _ _ _ _ _ Hwf). reflexivity. }
  assert (Hid : get_last_executed_workflow_id pipeline_name s = (Raise TypeError, s1)).
  { unfold Cdap.get_last_executed_workflow_id, bind. rewrite Hex. reflexivity. }
  repeat split.
  - unfold Cdap.start_pipeline. unfold bind at 1. cbn [get_self].
    rewrite (bind_ok _ _ _ _ _ Hwf). reflexivity.
  - exact Hex.
  - intros execution_id. unfold Cdap.get_workflow_execution_by_id.
    rewrite (bind_ok _ _ _ _ _ Hwf). reflexivity.
  - exact Hid.
  - unfold Cdap.get_last_executed_workflow_status, bind. rewrite Hid. reflexivity.
  - unfold Cdap.stop_pipeline, bind. rewrite Hid. reflexivity.
Qed.

(** *** delete_all_pipelines *)

Lemma delete_pipeline_sent (p : value) (s : State) :
  delete_pipeline p s =
    (server (trace s) (delete_request py_repr (self s) p),
     sent s (delete_request py_repr (self s) p)).
Proof. reflexivity. Qed.

Lemma delete_loop_all (c : Cdap.t) (names : list value) :
  forall s1,
    self s1 = c ->
    all_answered server (trace s1) (map (delete_request py_repr c) names) ->
    exists s',
      for_each names (fun pipeline => bind (delete_pipeline pipeline) (fun _ => ret tt)) s1
      = (Ok tt, s') /\
      self s' = c /\ logs s' = logs s1 /\
      trace s' = (trace s1 ++ map (delete_request py_repr c) names)%list.
Proof.
  induction names as [|p names IH]; intros s1 Hc Hans.
  - exists s1. cbn. rewrite app_nil_r. repeat split; assumption.
  - cbn [map all_answered] in Hans. destruct Hans as [(r & Hr) Hrest].
    cbn [for_each]. unfold bind at 1. unfold bind at 1.
    rewrite delete_pipeline_sent, Hc, Hr. cbn [ret].
    destruct (IH (sent s1 (delete_request py_repr c p)) Hc Hrest)
      as (s' & Hrun & Hs & Hl & Ht).
    exists s'. split; [exact Hrun|]. split; [exact Hs|]. split; [exact Hl|].
    rewrite Ht. cbn [sent trace map]. rewrite <- app_assoc. reflexivity.
Qed.

(** X9. [delete_all_pipelines] sends one DELETE per listed pipeline, in
    order, as long as the platform answers; the first DELETE that raises
    ends the call with that exception, and the pipelines listed after it
    get no request. *)
Theorem delete_all_pipelines_stops_at_failure
        (artifact_name artifact_version : value) (s s1 : State) (names : list value) :
  get_all_pipelines artifact_name artifact_version s = (Ok names, s1) ->
  let del := delete_request py_repr (self s) in
  (all_answered server (trace s1) (map del names) ->
   exists s',
     delete_all_pipelines artifact_name artifact_version s = (Ok tt, s') /\
     trace s' = (trace s1 ++ map del names)%list) /\
  (forall pre p post e,
      names = (pre ++ p :: post)%list ->
      all_answered server (trace s1) (map del pre) ->
      server (trace s1 ++ map del pre) (del p) = Raise e ->
      exists s',
        delete_all_pipelines artifact_name artifact_version s = (Raise e, s') /\
        trace s' = (trace s1 ++ map del pre ++ [del p])%list).
Proof.
  intros Hlist del.
  assert (Hself : self s1 = self s).
  { pose proof (framed_get_all_pipelines server artifact_name artifact_version s) as [H _].
    rewrite Hlist in H. exact H. }
  unfold Cdap.delete_all_pipelines. rewrite (bind_ok _ _ _ _ _ Hlist). split.
  - intros Hans.
    destruct (delete_loop_all (self s) names s1 Hself Hans) as (s' & Hrun & _ & _ & Ht).
    exists s'. split; assumption.
  - intros pre p post e -> Hans He.
    assert (Hsplit : forall l l' (f : value -> M unit) st st',
               for_each l f st = (Ok tt, st') ->
               for_each (l ++ l')%list f st = for_each l' f st').
    { induction l as [|x l IH]; intros l' f st st' H.
      - cbn in H. injection H as <-. reflexivity.
      - cbn [app for_each] in *. unfold bind in *.
        destruct (f x st) as [[[]|e0] st0]; [|discriminate]. apply IH. exact H. }
    destruct (delete_loop_all (self s) pre s1 Hself Hans) as (s' & Hrun & Hs & _ & Ht).
    rewrite (Hsplit _ _ _ _ _ Hrun). cbn [for_each]. unfold bind at 1. unfold bind at 1.
    rewrite delete_pipeline_sent, Hs, Ht. fold del. rewrite He.
    eexists. split; [reflexivity|]. cbn [sent trace]. rewrite Ht, <- app_assoc. reflexivity.
Qed.

(** *** Taking successful runs apart *)

Lemma bind_inv_ok {A B} (m : M A) (k : A -> M B) (s s' : State) (b : B) :
  bind m k s = (Ok b, s') ->
  exists a s1, m s = (Ok a, s1) /\ k a s1 = (Ok b, s').
Proof.
  unfold bind. destruct (m s) as [[a|e] s1]; [|discriminate].
  intros H. exists a, s1. split; [reflexivity|exact H].
Qed.

Lemma lift_inv_ok {A} (r : result A) (s s' : State) (a : A) :
  lift r s = (Ok a, s') -> r = Ok a /\ s' = s.
Proof. unfold lift. intros H. injection H as -> <-. split; reflexivity. Qed.

Lemma bind_lift_inv {A B} (r : result A) (k : A -> M B) (s s' : State) (b : B) :
  bind (lift r) k s = (Ok b, s') -> exists a, r = Ok a /\ k a s = (Ok b, s').
Proof.
  unfold bind, lift. destruct r as [a|e]; [|discriminate].
  intros H. exists a. split; [reflexivity|exact H].
Qed.

(** Peeling a successful run: reassociate, pass over the pure steps and the
    reads of [self], and stop in front of the next method call. *)
Ltac peel H :=
  repeat first
    [ rewrite bind_assoc in H
    | match type of H with
      | bind (lift _) _ _ = (Ok _, _) =>
          let a := fresh "a" in
          let E := fresh "E" in
          apply bind_lift_inv in H; destruct H as (a & E & H)
      | bind get_self _ _ = _ => unfold bind at 1 in H; cbn [get_self] in H
      end ].

Ltac step H :=
  let a := fresh "a" in
  let s1 := fresh "s" in
  let H1 := fresh "Hstep" in
  apply bind_inv_ok in H; destruct H as (a & s1 & H1 & H).

Lemma get_workflow_inv (p wf : value) (s s1 : State) :
  get_workflow p s = (Ok wf, s1) ->
  s1 = sent s (pipeline_info_request py_repr (self s) p).
Proof.
  unfold Cdap.get_workflow, Cdap.get_programs. intros H.
  peel H. step H.
  rewrite get_pipeline_info_sent in Hstep. injection Hstep as _ <-.
  peel H. apply lift_inv_ok in H. destruct H as [_ ->]. reflexivity.
Qed.

Lemma get_workflow_executions_inv (p : value) (s s1 : State) (r : Response) :
  get_workflow_executions p s = (Ok r, s1) ->
  exists workflow_type workflow_id,
    s1 = sent (sent s (pipeline_info_request py_repr (self s) p))
              (runs_request py_repr (self s) p workflow_type workflow_id).
Proof.
  unfold Cdap.get_workflow_executions. intros H.
  step H. apply get_workflow_inv in Hstep. subst.
  peel H. rewrite execute_request_sent in H.
  injection H as _ <-. do 2 eexists. reflexivity.
Qed.

Lemma get_last_executed_workflow_id_inv (p : value) (s s1 : State) (run_id : string) :
  get_last_executed_workflow_id p s = (Ok run_id, s1) ->
  exists workflow_type workflow_id,
    s1 = sent (sent s (pipeline_info_request py_repr (self s) p))
              (runs_request py_repr (self s) p workflow_type workflow_id).
Proof.
  unfold Cdap.get_last_executed_workflow_id. intros H.
  step H. apply get_workflow_executions_inv in Hstep.
  destruct Hstep as (wt & wid & ->).
  peel H. apply lift_inv_ok in H. destruct H as [_ ->]. exists wt, wid. reflexivity.
Qed.

(** *** stop_pipeline and start_pipeline, request by request *)

(** X10. A [stop_pipeline] that returns has sent exactly four requests:
    the GET of the pipeline's info, the GET of the runs, the GET of the
    pipeline's info a second time, and the POST of the stop; the workflow
    is resolved twice. *)
Theorem stop_pipeline_requests (pipeline_name : value) (s s' : State) (r : Response) :
  stop_pipeline pipeline_name s = (Ok r, s') ->
  exists workflow_type workflow_id workflow_type' workflow_id' execution_id,
    trace s' =
      (trace s ++
       [pipeline_info_request py_repr (self s) pipeline_name;
        runs_request py_repr (self s) pipeline_name workflow_type workflow_id;
        pipeline_info_request py_repr (self s) pipeline_name;
        stop_request py_repr (self s) pipeline_name workflow_type' workflow_id'
                     execution_id])%list /\
    self s' = self s.
Proof.
  unfold Cdap.stop_pipeline. intros H.
  step H. apply get_last_executed_workflow_id_inv in Hstep.
  destruct Hstep as (wt & wid & ->).
  step H. apply get_workflow_inv in Hstep. subst.
  peel H. rewrite execute_request_sent in H.
  injection H as _ <-.
  exists wt, wid. do 3 eexists. split; [|reflexivity].
  cbn [sent trace self]. rewrite <- !app_assoc. reflexivity.
Qed.

(** X11. With the workflow resolved, [start_pipeline] posts to
    [<namespaced root>/start] a one-element list naming the program by
    "appId", "programType" and "programId", each the [str] of the
    descriptor's "app", "type" and "name"; the type goes out as listed. *)
Theorem start_pipeline_payload
        (pipeline_name workflow app ty nm : value) (s s1 : State) :
  get_workflow pipeline_name s = (Ok workflow, s1) ->
  getitem workflow "app" = Ok app ->
  getitem workflow "type" = Ok ty ->
  getitem workflow "name" = Ok nm ->
  let req := start_request py_repr (self s) app ty nm in
  start_pipeline pipeline_name s = (server (trace s1) req, sent s1 req) /\
  request_type req = POST /\
  url req = rest_url (self s) ++ "/start" /\
  json req = Some (VList [VDict [("appId", VStr (str app));
                                 ("programType", VStr (str ty));
                                 ("programId", VStr (str nm))]]).
Proof.
  intros Hwf Happ Hty Hnm req.
  assert (Hs1 : self s1 = self s).
  { rewrite (get_workflow_inv _ _ _ _ Hwf). reflexivity. }
  split.
  - unfold Cdap.start_pipeline. unfold bind at 1. cbn [get_self].
    rewrite (bind_ok _ _ _ _ _ Hwf). unfold bind, lift, get_self.
    rewrite Happ, Hty, Hnm, execute_request_sent, Hs1. reflexivity.
  - unfold req, start_request, dispatched.
    destruct (is_True (kerberized (self s))); repeat split.
Qed.

(** *** The status of a run given by id *)

(** X12. [get_workflow_execution_status_by_id] answers "NOT_EXECUTED"
    without any request for the empty string only: for every other
    execution id, [None] and [0] included, it goes on to resolve the
    workflow, starting with the GET of the pipeline's info. *)
Theorem status_by_id_short_circuit (pipeline_name : value) (s : State) :
  get_workflow_execution_status_by_id pipeline_name (VStr "") s = (Ok "NOT_EXECUTED", s) /\
  (forall execution_id,
      execution_id <> VStr "" ->
      exists rest,
        trace (snd (get_workflow_execution_status_by_id pipeline_name execution_id s))
        = (trace s ++ pipeline_info_request py_repr (self s) pipeline_name :: rest)%list).
Proof.
  split; [reflexivity|].
  intros execution_id Hne.
  assert (E : eqb execution_id (VStr "") = false).
  { destruct (eqb execution_id (VStr "")) eqn:E; [|reflexivity].
    apply eqb_str in E. contradiction. }
  unfold Cdap.get_workflow_execution_status_by_id, Cdap._update_status. rewrite E.
  unfold Cdap.get_workflow_execution_by_id, Cdap.get_workflow, Cdap.get_programs.
  rewrite !bind_assoc.
  match goal with
  | |- context [bind (get_pipeline_info pipeline_name) ?k s] => set (K := k)
  end.
  unfold bind at 1. rewrite get_pipeline_info_sent.
  set (q := pipeline_info_request py_repr (self s) pipeline_name).
  destruct (server (trace s) q) as [r|e]; [|exists []; reflexivity].
  assert (HK : framed (K r)).
  { unfold K.
    repeat first
      [ apply framed_ret | apply framed_lift | apply framed_get_self
      | apply framed_execute_request | apply framed_bind; [|intro] ]. }
  destruct (HK (sent s q)) as [_ [t [Ht _]]]. exists t.
  rewrite Ht. cbn [sent trace]. rewrite <- app_assoc. reflexivity.
Qed.

(** *** What the methods send, and what they leave alone *)

Local Abbreviation init := (Cdap.init server py_repr).
Local Abbreviation run_op := (run server py_repr str_upper).
Local Abbreviation run_session := (run_all server py_repr str_upper).

Lemma uniform_refl (s : State) : uniform s s.
Proof.
  split; [reflexivity|]. exists []. rewrite app_nil_r. split; [reflexivity|constructor].
Qed.

Lemma uniform_trans (s s1 s2 : State) : uniform s s1 -> uniform s1 s2 -> uniform s s2.
Proof.
  intros [Hs1 (t1 & Ht1 & Hu1)] [Hs2 (t2 & Ht2 & Hu2)].
  split; [congruence|]. exists (t1 ++ t2)%list. split.
  - rewrite Ht2, Ht1, app_assoc. reflexivity.
  - apply Forall_app. split; [exact Hu1|]. rewrite Hs1 in Hu2. exact Hu2.
Qed.

Lemma uniform_silent (s s' : State) : self s' = self s -> trace s' = trace s -> uniform s s'.
Proof.
  intros Hs Ht. split; [exact Hs|]. exists []. rewrite app_nil_r. split; [exact Ht|constructor].
Qed.

Lemma uniformly_ret {A} (c : Cdap.t) (a : A) : uniformly c (ret a).
Proof. intros s _. apply uniform_refl. Qed.

Lemma uniformly_lift {A} (c : Cdap.t) (r : result A) : uniformly c (lift r).
Proof. intros s _. apply uniform_refl. Qed.

Lemma uniformly_log (c : Cdap.t) (lv : Level) (msg : string) (e : option exn) :
  uniformly c (log lv msg e).
Proof. intros s _. apply uniform_silent; reflexivity. Qed.

Lemma uniformly_bind {A B} (c : Cdap.t) (m : M A) (k : A -> M B) :
  uniformly c m -> (forall a, uniformly c (k a)) -> uniformly c (bind m k).
Proof.
  intros Hm Hk s Hc. unfold bind. specialize (Hm s Hc).
  destruct (m s) as [[a|e] s1]; cbn [snd] in *; [|exact Hm].
  apply uniform_trans with s1; [exact Hm|].
  apply Hk. destruct Hm as [Hs1 _]. congruence.
Qed.

Lemma uniformly_get_self_bind {B} (c : Cdap.t) (k : Cdap.t -> M B) :
  uniformly c (k c) -> uniformly c (bind get_self k).
Proof. intros Hk s Hc. unfold bind. cbn [get_self]. rewrite Hc. apply Hk. exact Hc. Qed.

Lemma uniformly_try_except {A} (c : Cdap.t) (m : M A) (h : exn -> M A) :
  uniformly c m -> (forall e, uniformly c (h e)) -> uniformly c (try_except m h).
Proof.
  intros Hm Hh s Hc. unfold try_except. specialize (Hm s Hc).
  destruct (m s) as [[a|e] s1]; cbn [snd] in *; [exact Hm|].
  apply uniform_trans with s1; [exact Hm|].
  apply Hh. destruct Hm as [Hs1 _]. congruence.
Qed.

Lemma uniformly_for_each {A} (c : Cdap.t) (l : list A) (f : A -> M unit) :
  (forall a, uniformly c (f a)) -> uniformly c (for_each l f).
Proof.
  intros Hf. induction l as [|x l IH]; cbn [for_each].
  - apply uniformly_ret.
  - apply uniformly_bind; [apply Hf|intros _; exact IH].
Qed.

Lemma uniformly_execute_request (c : Cdap.t) (spec : ApiRequestSpecification) :
  built_by c spec -> uniformly c (execute_request spec).
Proof.
  intros [Hv Hb] s Hc. rewrite execute_request_sent. split; [reflexivity|].
  exists [dispatched (self s) spec]. split; [reflexivity|].
  constructor; [|constructor]. rewrite Hc. unfold uniform_request, dispatched.
  destruct (is_True (kerberized c)); cbn; split; first [assumption|reflexivity].
Qed.

Ltac uniform_step :=
  first
    [ apply uniformly_ret | apply uniformly_lift | apply uniformly_log
    | apply uniformly_execute_request; split; reflexivity
    | apply uniformly_get_self_bind
    | apply uniformly_bind; [|intro]
    | apply uniformly_try_except; [|intro]
    | apply uniformly_for_each; intro
    | match goal with
      | |- uniformly _ (if ?b then _ else _) => destruct b
      end ].

Lemma uniform_operation (op : operation) (s : State) :
  is_login op = false -> is_raw op = false -> uniform s (run_op op s).
Proof.
  intros Hlogin Hraw.
  assert (H : forall A (m : M A), uniformly (self s) m -> uniform s (snd (m s)))
    by (intros A m Hm; apply Hm; reflexivity).
  destruct op; try discriminate Hlogin; try discriminate Hraw; cbn [run]; apply H;
    unfold Cdap.apps, Cdap.get_all_pipelines, Cdap.create_pipeline, Cdap.get_pipeline_info,
      Cdap.get_programs, Cdap.get_workflow, Cdap.start_pipeline,
      Cdap.get_workflow_executions, Cdap.get_workflow_execution_by_id,
      Cdap.get_last_executed_workflow_id, Cdap.get_last_executed_workflow_status,
      Cdap.get_workflow_execution_status_by_id, Cdap._update_status, Cdap.query_dataset,
      Cdap.get_query_status, Cdap.download_query_results, Cdap.view_query_result,
      Cdap.schema, Cdap.is_streaming_pipeline, Cdap.stop_pipeline,
      Cdap.stop_all_pipelines, Cdap.delete_pipeline, Cdap.delete_all_pipelines;
    repeat uniform_step.
Qed.

Lemma uniform_session (ops : list operation) :
  Forall (fun op => is_login op = false /\ is_raw op = false) ops ->
  forall s, uniform s (run_session ops s).
Proof.
  induction 1 as [|op ops [Hl Hr] _ IH]; intros s; cbn [run_all fold_left].
  - apply uniform_refl.
  - apply uniform_trans with (run_op op s); [apply uniform_operation; assumption|apply IH].
Qed.

(** X13. A session on a client built with [kerberized=True]: after the
    login POST, whatever methods are called (short of calling
    [get_access_token] or [execute_request] by hand), every request goes out
    with TLS verification off and with the token the login returned, and
    [self] stays as construction left it. *)
Theorem kerberized_session
        (node_ip rest_port ui_port username password namespace_id : value)
        (s0 s : State) (ops : list operation) :
  init node_ip rest_port ui_port username password (VBool true) namespace_id s0 = (Ok tt, s) ->
  Forall (fun op => is_login op = false /\ is_raw op = false) ops ->
  exists r j token t,
    server (trace s0) (login_request py_repr node_ip ui_port username password) = Ok r /\
    body r = Some j /\
    getitem j "access_token" = Ok token /\
    trace (run_session ops s)
      = (trace s0 ++ login_request py_repr node_ip ui_port username password :: t)%list /\
    Forall (fun q => request_verify q = false /\ bearer_token q = Some token) t /\
    self (run_session ops s) = self s /\
    access_token (self s) = token.
Proof.
  intros Hinit Hops.
  destruct (init_kerberized_self server py_repr _ _ _ _ _ _ _ _ Hinit)
    as (r & j & Hr & Hj & Htok & Hk & Hv & _).
  pose proof (init_kerberized_trace server py_repr node_ip rest_port ui_port username
                                    password namespace_id s0) as Htr.
  rewrite Hinit in Htr. cbn [snd] in Htr.
  destruct (uniform_session ops Hops s) as [Hself (t & Ht & Hu)].
  exists r, j, (access_token (self s)), t.
  repeat split; try assumption.
  - rewrite Ht, Htr, <- app_assoc. reflexivity.
  - eapply Forall_impl; [|exact Hu].
    intros q [Hqv Hqb]. unfold request_verify. rewrite Hqv, Hqb, Hv, Hk. split; reflexivity.
Qed.

(** X14. A session on a client built with anything but the object [True]
    for [kerberized] ([None], [1], "yes"): construction sends nothing and
    cannot fail, and whatever methods are called (short of calling
    [get_access_token] or [execute_request] by hand), every request goes
    out with TLS verification on and without a token. *)
Theorem plain_session
        (node_ip rest_port ui_port username password kerberized namespace_id : value)
        (s0 : State) :
  kerberized <> VBool true ->
  exists s,
    init node_ip rest_port ui_port username password kerberized namespace_id s0 = (Ok tt, s) /\
    trace s = trace s0 /\
    forall ops,
      Forall (fun op => is_login op = false /\ is_raw op = false) ops ->
      exists t,
        trace (run_session ops s) = (trace s0 ++ t)%list /\
        Forall (fun q => request_verify q = true /\ bearer_token q = None) t /\
        self (run_session ops s) = self s.
Proof.
  intros Hne.
  assert (Hk : is_True kerberized = false).
  { destruct kerberized as [|[|]| | | |]; try reflexivity. congruence. }
  destruct (init_plain server py_repr node_ip rest_port ui_port username password
                       kerberized namespace_id s0 Hk)
    as (s & Hinit & Htr & _ & Hker & Hv & _).
  exists s. split; [exact Hinit|]. split; [exact Htr|].
  intros ops Hops.
  destruct (uniform_session ops Hops s) as [Hself (t & Ht & Hu)].
  exists t. split; [rewrite Ht, Htr; reflexivity|]. split; [|exact Hself].
  eapply Forall_impl; [|exact Hu].
  intros q [Hqv Hqb]. unfold request_verify. rewrite Hqv, Hqb, Hv, Hker, Hk.
  split; reflexivity.
Qed.

(** X15. The outcome of a kerberized construction is the outcome of the
    login: a transport error, a body that is not JSON ([ValueError]) or a
    body without "access_token" ([KeyError]) makes the constructor raise;
    in every case the login POST is the one request sent. *)
Theorem kerberized_construction_outcome
        (node_ip rest_port ui_port username password namespace_id : value) (s0 : State) :
  let login := login_request py_repr node_ip ui_port username password in
  let built := init node_ip rest_port ui_port username password (VBool true)
                    namespace_id s0 in
  trace (snd built) = (trace s0 ++ [login])%list /\
  fst built = (r <-? server (trace s0) login;
               j <-? Response_json r;
               token <-? getitem j "access_token";
               Ok tt).
Proof.
  intros login built. split; [apply init_kerberized_trace|].
  unfold built, login, Cdap.init, Cdap.get_access_token, bind, set_self, get_self, lift, ret,
    ApiRequest_execute_request, login_request.
  cbn [is_True self trace logs Cdap.node_ip Cdap.ui_port Cdap.verify Cdap.ui_base_url].
  rewrite !append_assoc.
  destruct (server _ _) as [r|e]; [|reflexivity]. cbn [rbind].
  destruct (Response_json r) as [j|e]; [|reflexivity]. cbn [rbind].
  destruct (getitem j "access_token"); reflexivity.
Qed.

(** X16. No method rebinds the attributes construction has set: every
    method other than [get_access_token] leaves [self] as it was, and
    [get_access_token] itself only touches [verify] and the two base URLs;
    in particular it returns the new token without storing it. *)
Theorem methods_keep_instance (op : operation) (s : State) :
  (is_login op = false -> self (run_op op s) = self s) /\
  access_token (self (run_op op s)) = access_token (self s) /\
  kerberized (self (run_op op s)) = kerberized (self s) /\
  rest_url (self (run_op op s)) = rest_url (self s) /\
  username (self (run_op op s)) = username (self s) /\
  password (self (run_op op s)) = password (self s) /\
  node_ip (self (run_op op s)) = node_ip (self s) /\
  ui_port (self (run_op op s)) = ui_port (self s) /\
  rest_port (self (run_op op s)) = rest_port (self s).
Proof.
  destruct (is_login op) eqn:Hop.
  - split; [discriminate|].
    destruct op; try discriminate Hop. cbn [run].
    unfold Cdap.get_access_token, bind, set_self, get_self, lift,
      ApiRequest_execute_request.
    destruct (server _ _) as [r|e]; [|repeat split].
    destruct (Response_json r) as [j|e]; [|repeat split].
    destruct (getitem j "access_token"); repeat split.
  - destruct (framed_operation server py_repr str_upper op Hop s) as [Hs _].
    rewrite Hs. repeat split.
Qed.

(** *** The logger *)

Lemma quiet_ret {A} (a : A) : quiet (ret a).
Proof. intros s. reflexivity. Qed.

Lemma quiet_lift {A} (r : result A) : quiet (lift r).
Proof. intros s. reflexivity. Qed.

Lemma quiet_get_self : quiet get_self.
Proof. intros s. reflexivity. Qed.

Lemma quiet_set_self (c : Cdap.t) : quiet (set_self c).
Proof. intros s. reflexivity. Qed.

Lemma quiet_send (spec : ApiRequestSpecification) :
  quiet (ApiRequest_execute_request server spec).
Proof. intros s. reflexivity. Qed.

Lemma quiet_bind {A B} (m : M A) (k : A -> M B) :
  quiet m -> (forall a, quiet (k a)) -> quiet (bind m k).
Proof.
  intros Hm Hk s. unfold bind. specialize (Hm s).
  destruct (m s) as [[a|e] s1]; cbn [snd] in *; [|exact Hm].
  rewrite Hk. exact Hm.
Qed.

Lemma quiet_for_each {A} (l : list A) (f : A -> M unit) :
  (forall a, quiet (f a)) -> quiet (for_each l f).
Proof.
  intros Hf. induction l as [|x l IH]; cbn [for_each].
  - apply quiet_ret.
  - apply quiet_bind; [apply Hf|intros _; exact IH].
Qed.

Ltac quiet_step :=
  first
    [ apply quiet_ret | apply quiet_lift | apply quiet_get_self | apply quiet_set_self
    | apply quiet_send
    | apply quiet_bind; [|intro]
    | apply quiet_for_each; intro
    | match goal with
      | |- quiet (if ?b then _ else _) => destruct b
      end ].

(** X17. Only [create_pipeline] and [stop_all_pipelines] write to the
    logger: every other method, failing or not, leaves the log as it
    found it. *)
Theorem only_two_methods_log (op : operation) (s : State) :
  is_logging op = false -> logs (run_op op s) = logs s.
Proof.
  intros Hop.
  assert (H : forall A (m : M A), quiet m -> logs (snd (m s)) = logs s)
    by (intros A m Hm; apply Hm).
  destruct op; try discriminate Hop; cbn [run]; apply H;
    unfold Cdap.get_access_token, Cdap.execute_request, Cdap.apps, Cdap.get_all_pipelines,
      Cdap.get_pipeline_info, Cdap.get_programs, Cdap.get_workflow, Cdap.start_pipeline,
      Cdap.get_workflow_executions, Cdap.get_workflow_execution_by_id,
      Cdap.get_last_executed_workflow_id, Cdap.get_last_executed_workflow_status,
      Cdap.get_workflow_execution_status_by_id, Cdap._update_status, Cdap.query_dataset,
      Cdap.get_query_status, Cdap.download_query_results, Cdap.view_query_result,
      Cdap.schema, Cdap.is_streaming_pipeline, Cdap.stop_pipeline,
      Cdap.delete_pipeline, Cdap.delete_all_pipelines;
    repeat quiet_step.
Qed.

(** X18. An answer to the runs request that is not a JSON list never
    yields a run id: an empty object or empty string counts as "never
    run", anything else raises [TypeError]. *)
Theorem last_executed_of_non_list (execution_list : value) :
  (forall l, execution_list <> VList l) ->
  (execution_list = VDict [] \/ execution_list = VStr "" ->
   last_executed_of execution_list = Ok "") /\
  (execution_list <> VDict [] -> execution_list <> VStr "" ->
   last_executed_of execution_list = Raise TypeError).
Proof.
  intros Hnl. split.
  - intros [->| ->]; reflexivity.
  - intros Hd Hs. destruct execution_list as [|b|z|x|l|d]; try reflexivity.
    + destruct x as [|ch x]; [congruence|]. reflexivity.
    + exfalso. apply (Hnl l). reflexivity.
    + destruct d as [|[k v] d]; [congruence|]. reflexivity.
Qed.

End MoreClientFacts.

(** ** More runs on the demo platforms *)

Section MoreRuns.

Import Cdap.

(** The workflow of "p" resolves to the path segment "workflows". *)
Lemma selected_workflow_has_api_name_witness :
  Workflows.get_cdap_workflow Demo.upper Demo.programs_p
    = Ok (descriptor "Workflow" "DataPipelineWorkflow" "p") /\
  exists ty segment,
    getitem (descriptor "Workflow" "DataPipelineWorkflow" "p") "type" = Ok ty /\
    Workflows.get_api_workflow_name Demo.upper ty = Ok segment.
Proof.
  assert (H : Workflows.get_cdap_workflow Demo.upper Demo.programs_p
              = Ok (descriptor "Workflow" "DataPipelineWorkflow" "p")) by reflexivity.
  split; [exact H|].
  destruct (selected_workflow_has_api_name Demo.upper _ _ H) as [Hnone|(_ & ty & seg & Hty & Hseg & _)].
  - discriminate Hnone.
  - exists ty, seg. split; assumption.
Defined.

(** An entry without "type" ahead of the workflow. *)
Lemma get_cdap_workflow_malformed_entry_witness :
  Workflows.get_cdap_workflow Demo.upper
    (VList [descriptor "Spark" "first" "p"; VDict [("name", VStr "nameless")];
            descriptor "Workflow" "w" "p"])
  = Raise (KeyError "type").
Proof.
  apply (proj1 (get_cdap_workflow_malformed_entry Demo.upper
                  [descriptor "Spark" "first" "p"] [descriptor "Workflow" "w" "p"]
                  (VDict [("name", VStr "nameless")])
                  ltac:(repeat constructor; unfold is_descriptor; cbn; discriminate)
                  ltac:(repeat constructor; unfold is_workflow; cbn; discriminate))
           [("name", VStr "nameless")] eq_refl eq_refl).
Defined.

(** The earlier run has no "runid"; the later one is selected all the
    same. *)
Lemma last_executed_reads_one_runid_witness :
  exists i e t,
    nth_error [VDict [("starting", VInt 5)]; execution 9 "z" "RUNNING"] i = Some e /\
    nth_error [5%Z; 9%Z] i = Some t /\
    (forall j t', nth_error [5%Z; 9%Z] j = Some t' -> (t' < t)%Z \/ (t' = t /\ j <= i)) /\
    Cdap.last_executed_of Demo.repr
      (VList [VDict [("starting", VInt 5)]; execution 9 "z" "RUNNING"])
    = (runid <-? getitem e "runid"; Ok (Cdap.str Demo.repr runid)).
Proof.
  apply last_executed_reads_one_runid.
  - discriminate.
  - repeat constructor.
Defined.

(** The second record has no "starting". *)
Lemma last_executed_missing_starting_witness :
  Cdap.last_executed_of Demo.repr
    (VList [execution 10 "a" "COMPLETED"; VDict [("runid", VStr "b")]])
  = Raise (KeyError "starting").
Proof.
  apply (last_executed_missing_starting Demo.repr
           [execution 10 "a" "COMPLETED"] [] [("runid", VStr "b")]).
  - repeat constructor. exists (VInt 10). reflexivity.
  - reflexivity.
Defined.

(** An error object in place of the list of runs. *)
Lemma last_executed_of_non_list_witness :
  Cdap.last_executed_of Demo.repr (VDict [("error", VStr "not found")]) = Raise TypeError /\
  Cdap.last_executed_of Demo.repr (VDict []) = Ok "".
Proof.
  split.
  - apply (proj2 (last_executed_of_non_list Demo.repr (VDict [("error", VStr "not found")])
                    ltac:(discriminate))); discriminate.
  - apply (proj1 (last_executed_of_non_list Demo.repr (VDict []) ltac:(discriminate))).
    left. reflexivity.
Defined.

(** Pipeline "s" has a streaming source behind a transform; "p" has no
    plugins. *)
Lemma is_streaming_pipeline_iff_witness :
  fst (Cdap.is_streaming_pipeline Flaky.server Demo.repr (VStr "s") Demo.client) = Ok true /\
  fst (Cdap.is_streaming_pipeline Flaky.server Demo.repr (VStr "p") Demo.client) = Ok false.
Proof.
  split.
  - assert (Hinfo :
      Cdap.get_pipeline_info Flaky.server Demo.repr (VStr "s") Demo.client
      = (Flaky.server [] (pipeline_info_request Demo.repr (self Demo.client) (VStr "s")),
         snd (Cdap.get_pipeline_info Flaky.server Demo.repr (VStr "s") Demo.client)))
      by reflexivity.
    destruct (is_streaming_pipeline_iff Flaky.server Demo.repr (VStr "s") _
                [VDict [("type", VStr "transform")];
                 VDict [("type", VStr "streamingsource")]] _ _ _
                Hinfo eq_refl eq_refl
                ltac:(repeat constructor; eexists; reflexivity))
      as (b & Hrun & Hiff).
    rewrite Hrun. cbn [fst]. f_equal. apply Hiff. right. left. reflexivity.
  - assert (Hinfo :
      Cdap.get_pipeline_info Flaky.server Demo.repr (VStr "p") Demo.client
      = (Flaky.server [] (pipeline_info_request Demo.repr (self Demo.client) (VStr "p")),
         snd (Cdap.get_pipeline_info Flaky.server Demo.repr (VStr "p") Demo.client)))
      by reflexivity.
    destruct (is_streaming_pipeline_iff Flaky.server Demo.repr (VStr "p") _ [] _ _ _
                Hinfo eq_refl eq_refl ltac:(constructor))
      as (b & Hrun & Hiff).
    rewrite Hrun. cbn [fst]. f_equal. destruct b; [|reflexivity].
    exfalso. assert (He : Exists (fun q => getitem q "type" = Ok (VStr "streamingsource")) [])
      by (apply Hiff; reflexivity).
    inversion He.
Defined.

(** The three pipelines the demo platform lists. *)
Lemma get_all_pipelines_names_witness :
  fst (Cdap.get_all_pipelines Demo.server VNone VNone Demo.client)
  = Ok [VStr "p"; VStr "ghost"; VStr "q"].
Proof.
  rewrite (proj1 (get_all_pipelines_names Demo.server VNone VNone Demo.client _ _
                    eq_refl eq_refl)
             [VStr "p"; VStr "ghost"; VStr "q"] ltac:(repeat constructor)).
  reflexivity.
Defined.

(** "new" does not exist yet: the probe is answered 404 and the PUT
    follows. *)
Lemma create_pipeline_after_probe_witness :
  map (fun q => (request_type q, url q))
      (trace (snd (Cdap.create_pipeline Demo.server Demo.repr (VStr "new") (VBool false)
                                        (VDict []) Demo.client)))
  = [(GET, "http://h:11015/v3/namespaces/default/apps/new");
     (PUT, "http://h:11015/v3/namespaces/default/apps/new")].
Proof.
  rewrite (proj1 (create_pipeline_after_probe Demo.server Demo.repr (VStr "new") (VDict [])
                    Demo.client) (mkResponse 404 None) eq_refl ltac:(discriminate)).
  reflexivity.
Defined.

(** Pipeline "s" has neither workflow nor Spark program. *)
Lemma unresolved_workflow_raises_witness :
  fst (Cdap.stop_pipeline Flaky.server Demo.repr Demo.upper (VStr "s") Demo.client) = Raise TypeError /\
  List.length (trace (snd (Cdap.stop_pipeline Flaky.server Demo.repr Demo.upper (VStr "s") Demo.client)))
  = 1.
Proof.
  assert (Hwf :
    Cdap.get_workflow Flaky.server Demo.repr Demo.upper (VStr "s") Demo.client
    = (Ok VNone, snd (Cdap.get_workflow Flaky.server Demo.repr Demo.upper (VStr "s") Demo.client)))
    by reflexivity.
  destruct (unresolved_workflow_raises Flaky.server Demo.repr Demo.upper _ _ _ Hwf)
    as (_ & _ & _ & _ & _ & Hstop).
  rewrite Hstop. split; reflexivity.
Defined.

(** Deleting everything while "ghost" is unreachable: "p" is deleted, the
    DELETE of "ghost" fails, "q" is never asked for. *)
Lemma delete_all_pipelines_stops_at_failure_witness :
  exists s',
    Cdap.delete_all_pipelines Flaky.server Demo.repr VNone VNone Demo.client
    = (Raise (ConnectionError "connection refused"), s') /\
    map (fun q => (request_type q, url q)) (trace s')
    = [(GET, "http://h:11015/v3/namespaces/default/apps");
       (DELETE, "http://h:11015/v3/namespaces/default/apps/p");
       (DELETE, "http://h:11015/v3/namespaces/default/apps/ghost")].
Proof.
  assert (Hlist :
    Cdap.get_all_pipelines Flaky.server VNone VNone Demo.client
    = (Ok [VStr "p"; VStr "ghost"; VStr "q"],
       snd (Cdap.get_all_pipelines Flaky.server VNone VNone Demo.client)))
    by reflexivity.
  destruct (proj2 (delete_all_pipelines_stops_at_failure Flaky.server Demo.repr
                     VNone VNone Demo.client _ _ Hlist)
              [VStr "p"] (VStr "ghost") [VStr "q"] (ConnectionError "connection refused")
              eq_refl
              ltac:(split; [eexists; reflexivity|exact I])
              eq_refl)
    as (s' & Hrun & Htr).
  exists s'. split; [exact Hrun|]. rewrite Htr. reflexivity.
Defined.

(** Stopping "p": four requests. *)
Lemma stop_pipeline_requests_witness :
  map request_type
      (trace (snd (Cdap.stop_pipeline Demo.server Demo.repr Demo.upper (VStr "p") Demo.client)))
  = [GET; GET; GET; POST].
Proof.
  assert (Hstop :
    Cdap.stop_pipeline Demo.server Demo.repr Demo.upper (VStr "p") Demo.client
    = (Ok (mkResponse 200 None),
       snd (Cdap.stop_pipeline Demo.server Demo.repr Demo.upper (VStr "p") Demo.client)))
    by reflexivity.
  destruct (stop_pipeline_requests Demo.server Demo.repr Demo.upper _ _ _ _ Hstop)
    as (wt & wid & wt' & wid' & eid & Htr & _).
  rewrite Htr. cbn [map app trace].
  unfold pipeline_info_request, runs_request, stop_request, dispatched.
  reflexivity.
Defined.

(** Starting "p": the type goes out as listed, "Workflow". *)
Lemma start_pipeline_payload_witness :
  option_map json
    (last_request (snd (Cdap.start_pipeline Demo.server Demo.repr Demo.upper (VStr "p") Demo.client)))
  = Some (Some (VList [VDict [("appId", VStr "p"); ("programType", VStr "Workflow");
                              ("programId", VStr "DataPipelineWorkflow")]])).
Proof.
  assert (Hwf :
    Cdap.get_workflow Demo.server Demo.repr Demo.upper (VStr "p") Demo.client
    = (Ok (descriptor "Workflow" "DataPipelineWorkflow" "p"),
       snd (Cdap.get_workflow Demo.server Demo.repr Demo.upper (VStr "p") Demo.client)))
    by reflexivity.
  rewrite (proj1 (start_pipeline_payload Demo.server Demo.repr Demo.upper (VStr "p") _
                    (VStr "p") (VStr "Workflow") (VStr "DataPipelineWorkflow")
                    Demo.client _ Hwf eq_refl eq_refl eq_refl)).
  reflexivity.
Defined.

(** [None] as execution id is not the empty string: the workflow is
    resolved. *)
Lemma status_by_id_short_circuit_witness :
  exists rest,
    trace (snd (Cdap.get_workflow_execution_status_by_id Demo.server Demo.repr Demo.upper
                  (VStr "p") VNone Demo.client))
    = (trace Demo.client
         ++ pipeline_info_request Demo.repr (self Demo.client) (VStr "p") :: rest)%list.
Proof.
  apply (proj2 (status_by_id_short_circuit Demo.server Demo.repr Demo.upper (VStr "p") Demo.client)).
  discriminate.
Defined.

(** A kerberized session that lists the apps and stops every pipeline. *)
Lemma kerberized_session_witness :
  exists r j token t,
    Demo.server [] (login_request Demo.repr (VStr "h") (VInt 11011)
                                  (VStr "admin") (VStr "secret")) = Ok r /\
    body r = Some j /\
    getitem j "access_token" = Ok token /\
    trace (run_all Demo.server Demo.repr Demo.upper [OpApps VNone VNone; OpStopAllPipelines]
                   Demo.kerberized_client)
      = ([] ++ login_request Demo.repr (VStr "h") (VInt 11011)
                             (VStr "admin") (VStr "secret") :: t)%list /\
    Forall (fun q => request_verify q = false /\ bearer_token q = Some token) t /\
    self (run_all Demo.server Demo.repr Demo.upper [OpApps VNone VNone; OpStopAllPipelines]
                  Demo.kerberized_client) = self Demo.kerberized_client /\
    access_token (self Demo.kerberized_client) = token.
Proof.
  apply (kerberized_session Demo.server Demo.repr Demo.upper (VStr "h") (VInt 11015) (VInt 11011)
           (VStr "admin") (VStr "secret") (VStr "default") Demo.fresh).
  - reflexivity.
  - repeat constructor.
Defined.

(** [kerberized=1] is truthy but is not [True]. *)
Lemma plain_session_witness :
  exists s,
    Cdap.init Demo.server Demo.repr (VStr "h") (VInt 11015) (VInt 11011)
              (VStr "admin") (VStr "secret") (VInt 1) (VStr "default") Demo.fresh
    = (Ok tt, s) /\
    trace s = [].
Proof.
  destruct (plain_session Demo.server Demo.repr Demo.upper (VStr "h") (VInt 11015) (VInt 11011)
              (VStr "admin") (VStr "secret") (VInt 1) (VStr "default") Demo.fresh
              ltac:(discriminate)) as (s & Hinit & Htr & _).
  exists s. split; assumption.
Defined.

(** Stopping every pipeline leaves the instance as it was. *)
Lemma methods_keep_instance_witness :
  self (run Demo.server Demo.repr Demo.upper OpStopAllPipelines Demo.kerberized_client)
  = self Demo.kerberized_client.
Proof.
  apply (proj1 (methods_keep_instance Demo.server Demo.repr Demo.upper OpStopAllPipelines
                  Demo.kerberized_client)).
  reflexivity.
Defined.

(** A stop that fails on its own logs nothing. *)
Lemma only_two_methods_log_witness :
  logs (run Demo.server Demo.repr Demo.upper (OpStopPipeline (VStr "ghost")) Demo.client)
  = logs Demo.client.
Proof.
  apply only_two_methods_log. reflexivity.
Defined.

End MoreRuns.
